(** * p-router: credential-routed forward proxy

    A shallow embedding of the Go packages [repository], [router],
    [checker] and [server] of github.com/stickpro/p-router, and the
    properties of the routing table, the request dispatcher, the
    tunnel/forward engine and the health checker proved over it.

    Go strings are byte strings and are modelled by [string]; Go [int]
    and SQLite INTEGER values by [Z]; the [error] interface by the
    message it carries; a Go map by a [gmap]. *)

From Stdlib Require Import ZArith List Ascii String Lia Permutation DecimalString.
From stdpp Require Import gmap strings list fin_maps.

Local Open Scope string_scope.

(** ** Errors and results *)

(** A Go [error] value, identified with its message. *)
Definition error := string.

(** A Go [(T, error)] pair of results. *)
Inductive result (A : Type) : Type :=
| Ok (a : A)
| Err (e : error).
Arguments Ok {A} a.
Arguments Err {A} e.

Definition is_ok {A} (r : result A) : bool :=
  match r with Ok _ => true | Err _ => false end.

(** [fmt.Errorf("... %w", err)]: the wrapped message. *)
Definition wrap (prefix : string) (e : error) : error := prefix ++ ": " ++ e.

(** [fmt.Errorf("proxy with username %s not found", username)] *)
Definition errNotFound (username : string) : error :=
  "proxy with username " ++ username ++ " not found".

(** [fmt.Errorf("proxy with username %s already exists", username)] *)
Definition errAlreadyExists (username : string) : error :=
  "proxy with username " ++ username ++ " already exists".

(** ** Package repository *)

Module repository.

Record ProxyModel := {
  ID : Z;
  Username : string;
  Password : string;
  Target : string;
  FailedChecks : Z;
  LastCheckAt : string;
  CreatedAt : string
}.

(** The interface [IProxyRepository].  A method receives the store and
    returns its results together with the store after the call. *)
Class IProxyRepository (R : Type) := {
  Create : string -> string -> string -> R -> result ProxyModel * R;
  Update : string -> string -> string -> R -> option error * R;
  Delete : string -> R -> option error * R;
  FindByUsername : string -> R -> result (option ProxyModel) * R;
  FindAll : R -> result (list ProxyModel) * R;
  IncrementFailedChecks : string -> R -> option error * R;
  ResetFailedChecks : string -> R -> option error * R;
  Close : R -> option error * R
}.

(** The SQLite implementation: the table [proxies] in rowid order, the
    AUTOINCREMENT sequence, the value of CURRENT_TIMESTAMP, whether the
    handle was closed, and the outcomes the driver gives to the next
    statements ([Some e]: the statement fails with [e], as a locked or
    unreadable database file does; [None], or nothing left: it runs). *)
Record SQLiteRepository := {
  rows : list ProxyModel;
  seq : Z;
  clock : string;
  closed : bool;
  faults : list (option error)
}.

Module SQLite.

Definition with_rows (l : list ProxyModel) (s : Z) (db : SQLiteRepository) :=
  {| rows := l; seq := s; clock := clock db; closed := closed db;
     faults := faults db |}.

Definition with_faults (fs : list (option error)) (db : SQLiteRepository) :=
  {| rows := rows db; seq := seq db; clock := clock db; closed := closed db;
     faults := fs |}.

(** [db.Exec] / [db.Query] before the statement touches the table. *)
Definition driver (db : SQLiteRepository) : option error * SQLiteRepository :=
  if closed db then (Some "sql: database is closed", db)
  else match faults db with
       | [] => (None, db)
       | o :: fs => (o, with_faults fs db)
       end.

Definition has_username (u : string) (m : ProxyModel) : bool :=
  String.eqb (Username m) u.

Definition has_target (t : string) (m : ProxyModel) : bool :=
  String.eqb (Target m) t.

(** The columns the SELECT statements read: every one but
    [last_check_at], which stays at the zero value of the Go struct. *)
Definition scan (m : ProxyModel) : ProxyModel :=
  {| ID := ID m; Username := Username m; Password := Password m;
     Target := Target m; FailedChecks := FailedChecks m;
     LastCheckAt := EmptyString; CreatedAt := CreatedAt m |}.

Definition Create (username password target : string) (db : SQLiteRepository)
  : result ProxyModel * SQLiteRepository :=
  match driver db with
  | (Some e, db') => (Err (wrap "failed to insert proxy" e), db')
  | (None, db') =>
      if existsb (has_username username) (rows db') then
        (Err (wrap "failed to insert proxy"
                "UNIQUE constraint failed: proxies.username"), db')
      else if existsb (has_target target) (rows db') then
        (Err (wrap "failed to insert proxy"
                "UNIQUE constraint failed: proxies.target"), db')
      else
        let id := (seq db' + 1)%Z in
        let row := {| ID := id; Username := username; Password := password;
                      Target := target; FailedChecks := 0;
                      LastCheckAt := EmptyString; CreatedAt := clock db' |} in
        (Ok {| ID := id; Username := username; Password := password;
               Target := target; FailedChecks := 0;
               LastCheckAt := EmptyString; CreatedAt := EmptyString |},
         with_rows (rows db' ++ [row]) id db')
  end.

Definition set_credentials (password target : string) (m : ProxyModel) :=
  {| ID := ID m; Username := Username m; Password := password;
     Target := target; FailedChecks := FailedChecks m;
     LastCheckAt := LastCheckAt m; CreatedAt := CreatedAt m |}.

Definition set_failed (n : Z) (now : string) (m : ProxyModel) :=
  {| ID := ID m; Username := Username m; Password := Password m;
     Target := Target m; FailedChecks := n;
     LastCheckAt := now; CreatedAt := CreatedAt m |}.

(** [UPDATE proxies SET ... WHERE username = ?] on every matching row. *)
Definition update_where (u : string) (f : ProxyModel -> ProxyModel)
  (l : list ProxyModel) : list ProxyModel :=
  List.map (fun m => if has_username u m then f m else m) l.

Definition rowsAffected (u : string) (l : list ProxyModel) : nat :=
  length (List.filter (has_username u) l).

Definition Update (username password target : string) (db : SQLiteRepository)
  : option error * SQLiteRepository :=
  match driver db with
  | (Some e, db') => (Some (wrap "failed to update proxy" e), db')
  | (None, db') =>
      if Nat.eqb (rowsAffected username (rows db')) 0 then
        (Some (errNotFound username), db')
      else if existsb (fun m => negb (has_username username m)
                                && has_target target m) (rows db') then
        (Some (wrap "failed to update proxy"
                 "UNIQUE constraint failed: proxies.target"), db')
      else
        (None, with_rows (update_where username
                            (set_credentials password target) (rows db'))
                 (seq db') db')
  end.

Definition Delete (username : string) (db : SQLiteRepository)
  : option error * SQLiteRepository :=
  match driver db with
  | (Some e, db') => (Some (wrap "failed to delete proxy" e), db')
  | (None, db') =>
      if Nat.eqb (rowsAffected username (rows db')) 0 then
        (Some (errNotFound username), db')
      else
        (None, with_rows
                 (List.filter (fun m => negb (has_username username m))
                    (rows db'))
                 (seq db') db')
  end.

Definition FindByUsername (username : string) (db : SQLiteRepository)
  : result (option ProxyModel) * SQLiteRepository :=
  match driver db with
  | (Some e, db') => (Err (wrap "failed to query proxy" e), db')
  | (None, db') =>
      (Ok (option_map scan (List.find (has_username username) (rows db'))),
       db')
  end.

Definition FindAll (db : SQLiteRepository)
  : result (list ProxyModel) * SQLiteRepository :=
  match driver db with
  | (Some e, db') => (Err (wrap "failed to query proxies" e), db')
  | (None, db') => (Ok (List.map scan (rows db')), db')
  end.

Definition IncrementFailedChecks (username : string) (db : SQLiteRepository)
  : option error * SQLiteRepository :=
  match driver db with
  | (Some e, db') => (Some (wrap "failed to increment failed checks" e), db')
  | (None, db') =>
      if Nat.eqb (rowsAffected username (rows db')) 0 then
        (Some (errNotFound username), db')
      else
        (None, with_rows
                 (update_where username
                    (fun m => set_failed (FailedChecks m + 1) (clock db') m)
                    (rows db'))
                 (seq db') db')
  end.

Definition ResetFailedChecks (username : string) (db : SQLiteRepository)
  : option error * SQLiteRepository :=
  match driver db with
  | (Some e, db') => (Some (wrap "failed to reset failed checks" e), db')
  | (None, db') =>
      if Nat.eqb (rowsAffected username (rows db')) 0 then
        (Some (errNotFound username), db')
      else
        (None, with_rows
                 (update_where username
                    (fun m => set_failed 0 (clock db') m) (rows db'))
                 (seq db') db')
  end.

Definition Close (db : SQLiteRepository) : option error * SQLiteRepository :=
  (None, {| rows := rows db; seq := seq db; clock := clock db;
            closed := true; faults := faults db |}).

End SQLite.

#[global] Instance SQLite_repository : IProxyRepository SQLiteRepository := {
  Create := SQLite.Create;
  Update := SQLite.Update;
  Delete := SQLite.Delete;
  FindByUsername := SQLite.FindByUsername;
  FindAll := SQLite.FindAll;
  IncrementFailedChecks := SQLite.IncrementFailedChecks;
  ResetFailedChecks := SQLite.ResetFailedChecks;
  Close := SQLite.Close
}.

(** [NewSQLiteRepository] on a database file that holds [l]. *)
Definition open (l : list ProxyModel) (s : Z) (now : string) : SQLiteRepository :=
  {| rows := l; seq := s; clock := now; closed := false; faults := [] |}.

End repository.

(** ** Package router *)

Module router.
Import repository.

Record ProxyConfig := {
  ID : Z;
  Username : string;
  Password : string;
  Target : string
}.

(** The router's store handle and its [cache] map.  The map holds
    pointers in Go; a record is changed in place only by [UpdateProxy],
    which here replaces the entry under the same key. *)
Record ProxyRouter (R : Type) := {
  repo : R;
  cache : gmap string ProxyConfig
}.
Arguments repo {R} _.
Arguments cache {R} _.

Definition configOf (model : ProxyModel) : ProxyConfig :=
  {| ID := repository.ID model; Username := repository.Username model;
     Password := repository.Password model;
     Target := repository.Target model |}.

Section Router.
Context {R : Type} `{IProxyRepository R}.

Definition loadCache (pr : ProxyRouter R) : option error * ProxyRouter R :=
  match FindAll (repo pr) with
  | (Err e, r') => (Some e, {| repo := r'; cache := cache pr |})
  | (Ok models, r') =>
      (None,
       {| repo := r';
          cache := fold_left
                     (fun c model =>
                        <[repository.Username model := configOf model]> c)
                     models (cache pr) |})
  end.

Definition NewProxyRouter (r : R) : ProxyRouter R :=
  let pr := {| repo := r; cache := ∅ |} in
  snd (loadCache pr).

Definition AddProxy (username password target : string) (pr : ProxyRouter R)
  : option error * ProxyRouter R :=
  match cache pr !! username with
  | Some _ => (Some (errAlreadyExists username), pr)
  | None =>
      match Create username password target (repo pr) with
      | (Err e, r') => (Some e, {| repo := r'; cache := cache pr |})
      | (Ok model, r') =>
          (None, {| repo := r';
                    cache := <[username := configOf model]> (cache pr) |})
      end
  end.

Definition UpdateProxy (username password target : string) (pr : ProxyRouter R)
  : option error * ProxyRouter R :=
  match cache pr !! username with
  | None => (Some (errNotFound username), pr)
  | Some config =>
      match Update username password target (repo pr) with
      | (Some e, r') => (Some e, {| repo := r'; cache := cache pr |})
      | (None, r') =>
          (None, {| repo := r';
                    cache := <[username :=
                                 {| ID := ID config; Username := Username config;
                                    Password := password; Target := target |}]>
                               (cache pr) |})
      end
  end.

Definition GetProxy (username password : string) (pr : ProxyRouter R)
  : option ProxyConfig * bool :=
  match cache pr !! username with
  | None => (None, false)
  | Some config =>
      if negb (String.eqb (Password config) password) then (None, false)
      else (Some config, true)
  end.

Definition RemoveProxy (username : string) (pr : ProxyRouter R)
  : option error * ProxyRouter R :=
  match cache pr !! username with
  | None => (Some (errNotFound username), pr)
  | Some _ =>
      match Delete username (repo pr) with
      | (Some e, r') => (Some e, {| repo := r'; cache := cache pr |})
      | (None, r') =>
          (None, {| repo := r'; cache := delete username (cache pr) |})
      end
  end.

(** [ListProxies]: username to target. *)
Definition ListProxies (pr : ProxyRouter R) : gmap string string :=
  Target <$> cache pr.

(** [GetAllProxies]: a copy of every cached record, in the order the map
    is iterated. *)
Definition GetAllProxies (pr : ProxyRouter R) : list ProxyConfig :=
  snd <$> map_to_list (cache pr).

End Router.
End router.

(** ** Package checker *)

Module checker.
Import repository.

(** Modelled from the spec: the [Checker] section of [config.Config]
    read by the service ([conf.Checker.MaxFailedChecks],
    [conf.Checker.CheckURL]); the configuration file under the sources
    predates it.  An unset value is Go's zero value. *)
Record CheckerConfig := {
  MaxFailedChecks : Z;
  CheckURL : string
}.

Record CheckResult := {
  Username : string;
  Success : bool;
  Error : option error
}.

(** What the network answers to one probe through a target. *)
Inductive Probe :=
| TCPFailed
| InvalidProxyURL (e : error)
| InvalidRequest (e : error)
| DoFailed (e : error)
| Responded (StatusCode : Z).

(** The probes of one cycle: target and check URL to answer. *)
Definition Network := string -> string -> Probe.

Definition itoa (z : Z) : string :=
  NilZero.string_of_int (Z.to_int z).

Definition failed (username : string) (e : error) : CheckResult :=
  {| Username := username; Success := false; Error := Some e |}.

Definition checkSingleProxy (conf : CheckerConfig) (net : Network)
  (proxy : ProxyModel) : CheckResult :=
  let testURL :=
    if String.eqb (CheckURL conf) EmptyString then "http://www.google.com"
    else CheckURL conf in
  match net (Target proxy) testURL with
  | TCPFailed => failed (repository.Username proxy) "tcp connection failed"
  | InvalidProxyURL e =>
      failed (repository.Username proxy) (wrap "invalid proxy URL" e)
  | InvalidRequest e =>
      failed (repository.Username proxy) (wrap "failed to create request" e)
  | DoFailed e =>
      failed (repository.Username proxy) (wrap "http request failed" e)
  | Responded StatusCode =>
      if (200 <=? StatusCode)%Z && (StatusCode <? 400)%Z then
        {| Username := repository.Username proxy; Success := true;
           Error := None |}
      else
        failed (repository.Username proxy)
          (wrap "unexpected status code" (itoa StatusCode))
  end.

Definition maxFailedChecks (conf : CheckerConfig) : Z :=
  if (MaxFailedChecks conf =? 0)%Z then 5%Z else MaxFailedChecks conf.

Section Checker.
Context {R : Type} `{IProxyRepository R}.

(** The body of the loop over [resultChan] in [Check]; the log lines and
    the two counters that only feed them are left out. *)
Definition handleResult (conf : CheckerConfig) (result : CheckResult) (r : R) : R :=
  if Success result then
    snd (ResetFailedChecks (Username result) r)
  else
    match IncrementFailedChecks (Username result) r with
    | (Some _, r1) => r1
    | (None, r1) =>
        match FindByUsername (Username result) r1 with
        | (Err _, r2) => r2
        | (Ok None, r2) => r2
        | (Ok (Some proxy), r2) =>
            if (FailedChecks proxy >=? maxFailedChecks conf)%Z then
              snd (Delete (Username result) r2)
            else r2
        end
    end.

(** One probe cycle.  [arrival] is the order in which the probing
    goroutines deliver their results on the channel. *)
Definition Check (conf : CheckerConfig) (net : Network)
  (arrival : list CheckResult -> list CheckResult) (r : R) : option error * R :=
  match FindAll r with
  | (Err e, r') => (Some (wrap "failed to fetch proxies" e), r')
  | (Ok proxies, r') =>
      if Nat.eqb (length proxies) 0 then (None, r')
      else
        (None,
         fold_left (fun r result => handleResult conf result r)
           (arrival (List.map (checkSingleProxy conf net) proxies)) r')
  end.

(** Consecutive cycles of [StartPeriodicCheck], one network behaviour and
    one arrival order per tick. *)
Fixpoint cycles (conf : CheckerConfig)
  (ticks : list (Network * (list CheckResult -> list CheckResult))) (r : R) : R :=
  match ticks with
  | [] => r
  | (net, arrival) :: rest => cycles conf rest (snd (Check conf net arrival r))
  end.

End Checker.
End checker.

(** ** Package app *)

Module app.
Import repository router.

(** [Run] builds the router and the checker over one repository handle;
    the checker service holds the repository and never the router, so a
    cycle acts on the store the router shares and on nothing else. *)
Definition checkCycle {R : Type} `{IProxyRepository R}
  (conf : checker.CheckerConfig) (net : checker.Network)
  (arrival : list checker.CheckResult -> list checker.CheckResult)
  (pr : ProxyRouter R) : ProxyRouter R :=
  {| repo := snd (checker.Check conf net arrival (repo pr));
     cache := cache pr |}.

Fixpoint checkCycles {R : Type} `{IProxyRepository R}
  (conf : checker.CheckerConfig)
  (ticks : list (checker.Network
                 * (list checker.CheckResult -> list checker.CheckResult)))
  (pr : ProxyRouter R) : ProxyRouter R :=
  match ticks with
  | [] => pr
  | (net, arrival) :: rest =>
      checkCycles conf rest (checkCycle conf net arrival pr)
  end.

End app.

(** ** encoding/base64 and strings, as far as the server uses them *)

Module base64.

(** [decodeMap] of the standard alphabet: the 6-bit value of a byte. *)
Definition decodeMap (c : ascii) : option N :=
  let n := N_of_ascii c in
  if (65 <=? n)%N && (n <=? 90)%N then Some (n - 65)%N
  else if (97 <=? n)%N && (n <=? 122)%N then Some (n - 71)%N
  else if (48 <=? n)%N && (n <=? 57)%N then Some (n + 4)%N
  else if (n =? 43)%N then Some 62%N
  else if (n =? 47)%N then Some 63%N
  else None.

Definition isNewline (c : ascii) : bool :=
  let n := N_of_ascii c in (n =? 10)%N || (n =? 13)%N.

Definition isPad (c : ascii) : bool := (N_of_ascii c =? 61)%N.

Fixpoint skipNewlines (s : string) : string :=
  match s with
  | String c rest => if isNewline c then skipNewlines rest else s
  | EmptyString => s
  end.

(** The 24-bit value of a quantum and its bytes. *)
Definition val (a b c d : N) : N :=
  N.lor (N.lor (N.shiftl a 18) (N.shiftl b 12)) (N.lor (N.shiftl c 6) d).

Definition byteOf (v shift : N) : ascii :=
  ascii_of_N (N.land (N.shiftr v shift) 255).

Definition quantum (dbuf : list N) : string :=
  match dbuf with
  | [a; b; c; d] =>
      let v := val a b c d in
      String (byteOf v 16) (String (byteOf v 8) (String (byteOf v 0) EmptyString))
  | [a; b; c] =>
      let v := val a b c 0 in
      String (byteOf v 16) (String (byteOf v 8) EmptyString)
  | [a; b] =>
      let v := val a b 0 0 in String (byteOf v 16) EmptyString
  | _ => EmptyString
  end.

(** [StdEncoding.Decode]: quanta of four alphabet bytes, CR and LF
    skipped anywhere, [=] padding only to fill the last quantum and
    nothing but newlines after it.  [dbuf] holds the values read in the
    current quantum, [dst] the bytes decoded so far. *)
Fixpoint decode (src : string) (dbuf : list N) (dst : string) : option string :=
  match src with
  | EmptyString =>
      match dbuf with
      | [] => Some dst
      | _ => None
      end
  | String c rest =>
      match decodeMap c with
      | Some out =>
          let dbuf' := (dbuf ++ [out])%list in
          if Nat.eqb (length dbuf') 4 then decode rest [] (dst ++ quantum dbuf')
          else decode rest dbuf' dst
      | None =>
          if isNewline c then decode rest dbuf dst
          else if negb (isPad c) then None
          else
            match dbuf with
            | [_; _] =>
                match skipNewlines rest with
                | String p rest' =>
                    if isPad p then
                      match skipNewlines rest' with
                      | EmptyString => Some (dst ++ quantum dbuf)
                      | _ => None
                      end
                    else None
                | EmptyString => None
                end
            | [_; _; _] =>
                match skipNewlines rest with
                | EmptyString => Some (dst ++ quantum dbuf)
                | _ => None
                end
            | _ => None
            end
      end
  end.

(** [base64.StdEncoding.DecodeString]; [None] when it returns an error. *)
Definition DecodeString (s : string) : option string :=
  decode s [] EmptyString.

End base64.

Module strings.

(** The text before and after the first [sep] in [s], if there is one. *)
Fixpoint cut (sep : ascii) (s : string) : option (string * string) :=
  match s with
  | EmptyString => None
  | String c rest =>
      if Ascii.eqb c sep then Some (EmptyString, rest)
      else match cut sep rest with
           | Some (before, after) => Some (String c before, after)
           | None => None
           end
  end.

(** [strings.SplitN(s, sep, 2)] for a one-byte separator. *)
Definition SplitN2 (s : string) (sep : ascii) : list string :=
  match cut sep s with
  | Some (before, after) => [before; after]
  | None => [s]
  end.

Fixpoint contains (sep : ascii) (s : string) : bool :=
  match s with
  | EmptyString => false
  | String c rest => Ascii.eqb c sep || contains sep rest
  end.

End strings.

(** ** net/http, as far as the server uses it *)

Module http.

(** [http.Header] under canonical keys.  Every key the server passes is
    a literal in canonical form or a key of a parsed message, which the
    parser has canonicalised. *)
Abbreviation Header := (gmap string (list string)).

Definition Get (key : string) (h : Header) : string :=
  match h !! key with
  | Some (v :: _) => v
  | _ => EmptyString
  end.

Definition Values (key : string) (h : Header) : list string :=
  default [] (h !! key).

Definition Set_ (key value : string) (h : Header) : Header :=
  <[key := [value]]> h.

Definition Add (key value : string) (h : Header) : Header :=
  <[key := (Values key h ++ [value])%list]> h.

Definition Del (key : string) (h : Header) : Header := delete key h.

Record Request := {
  Method : string;
  Host : string;
  RequestURI : string;
  ReqHeader : Header;
  ReqBody : string
}.

Record Response := {
  Status : string;
  StatusCode : Z;
  RespHeader : Header;
  RespBody : string
}.

(** What a handler has done to its [http.ResponseWriter]: the header
    map it filled, the status it gave to the first [WriteHeader] (200
    if it wrote the body first), and the bytes it gave to [Write].  How
    net/http frames these calls on the wire is outside the embedding. *)
Record ResponseWriter := {
  header : Header;
  wroteHeader : option Z;
  written : string
}.

Definition newResponseWriter : ResponseWriter :=
  {| header := ∅; wroteHeader := None; written := EmptyString |}.

Definition setHeader (f : Header -> Header) (w : ResponseWriter) :=
  {| header := f (header w); wroteHeader := wroteHeader w;
     written := written w |}.

Definition WriteHeader (code : Z) (w : ResponseWriter) :=
  {| header := header w;
     wroteHeader := match wroteHeader w with
                    | Some c => Some c
                    | None => Some code
                    end;
     written := written w |}.

Definition Write (data : string) (w : ResponseWriter) :=
  {| header := header w;
     wroteHeader := match wroteHeader w with
                    | Some c => Some c
                    | None => Some 200%Z
                    end;
     written := written w ++ data |}.

Definition LF : string := String "010"%char EmptyString.
Definition CRLF : string := String "013"%char LF.

(** [http.Error]: no [Content-Length], plain-text headers, the status,
    the message and a newline. *)
Definition Error (w : ResponseWriter) (msg : string) (code : Z) : ResponseWriter :=
  let w :=
    setHeader
      (fun h =>
         Set_ "X-Content-Type-Options" "nosniff"
           (Set_ "Content-Type" "text/plain; charset=utf-8"
              (Del "Content-Length" h)))
      w in
  Write (msg ++ LF) (WriteHeader code w).

Definition StatusOK : Z := 200.
Definition StatusProxyAuthRequired : Z := 407.
Definition StatusInternalServerError : Z := 500.
Definition StatusServiceUnavailable : Z := 503.
Definition MethodConnect : string := "CONNECT".

End http.

(** ** Package server *)

Module server.
Import router http.

Definition parseProxyAuth (authHeader : string) : string * string * bool :=
  if String.eqb authHeader EmptyString then (EmptyString, EmptyString, false)
  else
    match strings.SplitN2 authHeader " "%char with
    | [scheme; payload] =>
        if negb (String.eqb scheme "Basic") then
          (EmptyString, EmptyString, false)
        else
          match base64.DecodeString payload with
          | None => (EmptyString, EmptyString, false)
          | Some decoded =>
              match strings.SplitN2 decoded ":"%char with
              | [username; password] => (username, password, true)
              | _ => (EmptyString, EmptyString, false)
              end
          end
    | _ => (EmptyString, EmptyString, false)
    end.

(** The outcome of [w.(http.Hijacker)] and [Hijack]. *)
Inductive Hijack :=
| NotHijacker
| HijackFailed (e : error)
| Hijacked.

(** What the network does for one request: the dial of a target, the
    write on the upstream connection, the response read from it, and
    the takeover of the client connection. *)
Record Upstream := {
  dial : string -> option error;
  write : option error;
  reply : result Response;
  hijack : Hijack
}.

(** What was written on the upstream connection. *)
Inductive Sent :=
| SentBytes (data : string)
| SentRequest (r : Request).

(** Everything a handler did: the response it wrote, the targets it
    dialled, what it wrote upstream, whether it took over the client
    connection and what it wrote there, whether it reached the two
    copies of the tunnel, and whether it dereferenced a nil record. *)
Record Exchange := {
  w : ResponseWriter;
  dialed : list string;
  sent : list Sent;
  hijacked : bool;
  clientConn : string;
  tunnel : bool;
  panicked : bool
}.

Definition respond (w : ResponseWriter) (dialed : list string) (sent : list Sent)
  : Exchange :=
  {| w := w; dialed := dialed; sent := sent; hijacked := false;
     clientConn := EmptyString; tunnel := false; panicked := false |}.

Definition established : string :=
  "HTTP/1.1 200 Connection Established" ++ CRLF ++ CRLF.

Definition handleConnect (up : Upstream) (w : ResponseWriter) (r : Request)
  (config : ProxyConfig) : Exchange :=
  match dial up (Target config) with
  | Some err =>
      respond (Error w ("Cannot connect to proxy: " ++ err)
                 StatusServiceUnavailable) [Target config] []
  | None =>
      let connectReq :=
        "CONNECT " ++ Host r ++ " HTTP/1.1" ++ CRLF
        ++ "Host: " ++ Host r ++ CRLF ++ CRLF in
      match write up with
      | Some _ =>
          respond (Error w "Failed to send CONNECT" StatusInternalServerError)
            [Target config] []
      | None =>
          match reply up with
          | Err _ =>
              respond (Error w "Failed to read proxy response"
                         StatusInternalServerError)
                [Target config] [SentBytes connectReq]
          | Ok resp =>
              if negb (Z.eqb (StatusCode resp) StatusOK) then
                respond (Error w ("Proxy returned: " ++ Status resp)
                           (StatusCode resp))
                  [Target config] [SentBytes connectReq]
              else
                match hijack up with
                | NotHijacker =>
                    respond (Error w "Hijacking not supported"
                               StatusInternalServerError)
                      [Target config] [SentBytes connectReq]
                | HijackFailed err =>
                    respond (Error w err StatusServiceUnavailable)
                      [Target config] [SentBytes connectReq]
                | Hijacked =>
                    {| w := w; dialed := [Target config];
                       sent := [SentBytes connectReq]; hijacked := true;
                       clientConn := established; tunnel := true;
                       panicked := false |}
                end
          end
      end
  end.

(** The two nested loops over [resp.Header]; [entries] is the map in the
    order the iteration visits it. *)
Definition copyHeader (entries : list (string * list string)) (h : Header) : Header :=
  fold_left
    (fun h entry => fold_left (fun h value => Add (fst entry) value h) (snd entry) h)
    entries h.

Definition stripProxyHeaders (r : Request) : Request :=
  {| Method := Method r; Host := Host r; RequestURI := RequestURI r;
     ReqHeader := Del "Proxy-Connection" (Del "Proxy-Authorization" (ReqHeader r));
     ReqBody := ReqBody r |}.

Definition handleHTTPRequest (up : Upstream) (w : ResponseWriter) (r : Request)
  (config : ProxyConfig) : Exchange :=
  match dial up (Target config) with
  | Some err =>
      respond (Error w ("Cannot connect to proxy: " ++ err)
                 StatusServiceUnavailable) [Target config] []
  | None =>
      let r := stripProxyHeaders r in
      match write up with
      | Some _ =>
          respond (Error w "Failed to send request to proxy"
                     StatusInternalServerError) [Target config] []
      | None =>
          match reply up with
          | Err _ =>
              respond (Error w "Failed to read proxy response"
                         StatusInternalServerError)
                [Target config] [SentRequest r]
          | Ok resp =>
              let w := setHeader (copyHeader (map_to_list (RespHeader resp))) w in
              let w := WriteHeader (StatusCode resp) w in
              respond (Write (RespBody resp) w) [Target config] [SentRequest r]
          end
      end
  end.

Definition challenge : string :=
  "Basic realm=" ++ String "034"%char ("Proxy" ++ String "034"%char EmptyString).

(** The answer to a request that fails authentication, on a fresh
    response writer. *)
Definition unauthorized (msg : string) : Exchange :=
  respond (Error (setHeader (Set_ "Proxy-Authenticate" challenge) newResponseWriter)
             msg StatusProxyAuthRequired) [] [].

Definition handleHTTP {R : Type} `{repository.IProxyRepository R}
  (pr : ProxyRouter R) (up : Upstream) (w : ResponseWriter) (r : Request)
  : Exchange :=
  let '(username, password, ok) :=
    parseProxyAuth (Get "Proxy-Authorization" (ReqHeader r)) in
  if negb ok then
    respond (Error (setHeader (Set_ "Proxy-Authenticate" challenge) w)
               "Proxy Authentication Required" StatusProxyAuthRequired) [] []
  else
    let '(config, valid) := GetProxy username password pr in
    if negb valid then
      respond (Error (setHeader (Set_ "Proxy-Authenticate" challenge) w)
                 "Invalid credentials" StatusProxyAuthRequired) [] []
    else
      match config with
      | None =>
          {| w := w; dialed := []; sent := []; hijacked := false;
             clientConn := EmptyString; tunnel := false; panicked := true |}
      | Some config =>
          if String.eqb (Method r) MethodConnect then handleConnect up w r config
          else handleHTTPRequest up w r config
      end.

(** *** The splice of an established tunnel

    After the takeover [handleConnect] starts a goroutine running
    [io.Copy(targetConn, clientConn)] and itself runs
    [io.Copy(clientConn, targetConn)]; when the latter returns, the
    handler returns and its deferred calls close the client and the
    upstream connection.  Nothing follows the copy in the goroutine.  A
    copy returns when the network ends it; the two events below are the
    returns of the two copies. *)

Inductive Copy := Copying | Returned.

Record Splice := {
  clientToUpstream : Copy;
  upstreamToClient : Copy;
  clientOpen : bool;
  targetOpen : bool;
  handlerReturned : bool
}.

Inductive Event :=
| ClientToUpstreamReturns
| UpstreamToClientReturns.

Definition spliced : Splice :=
  {| clientToUpstream := Copying; upstreamToClient := Copying;
     clientOpen := true; targetOpen := true; handlerReturned := false |}.

Definition step (s : Splice) (e : Event) : Splice :=
  match e with
  | ClientToUpstreamReturns =>
      {| clientToUpstream := Returned; upstreamToClient := upstreamToClient s;
         clientOpen := clientOpen s; targetOpen := targetOpen s;
         handlerReturned := handlerReturned s |}
  | UpstreamToClientReturns =>
      {| clientToUpstream := clientToUpstream s; upstreamToClient := Returned;
         clientOpen := false; targetOpen := false; handlerReturned := true |}
  end.

Definition run (events : list Event) : Splice := fold_left step events spliced.

End server.

(** ** Observations used to state the properties *)

Module observe.
Import repository.

(** No statement of [db] will fail for a reason outside the table. *)
Definition healthy (db : SQLiteRepository) : Prop :=
  closed db = false /\ faults db = [].

(** The row of [username] in the table, if any. *)
Definition row (username : string) (db : SQLiteRepository) : option ProxyModel :=
  List.find (SQLite.has_username username) (rows db).


(** The uniqueness constraint on [username]. *)
Definition unique (db : SQLiteRepository) : Prop :=
  List.NoDup (List.map Username (rows db)).

(** Whether the probe of [target] succeeds on [net]. *)
Definition probeOK (conf : checker.CheckerConfig) (net : checker.Network)
  (target : string) : bool :=
  let testURL :=
    if String.eqb (checker.CheckURL conf) EmptyString then "http://www.google.com"
    else checker.CheckURL conf in
  match net target testURL with
  | checker.Responded code => (200 <=? code)%Z && (code <? 400)%Z
  | _ => false
  end.

(** The life of one record's counter under one probe result: reset on
    success; on failure incremented, and the record gone when the new
    value is at or beyond [max]. *)
Definition counterStep (max : Z) (success : bool) (c : option Z) : option Z :=
  match c with
  | None => None
  | Some n =>
      if success then Some 0%Z
      else if (n + 1 >=? max)%Z then None
      else Some (n + 1)%Z
  end.

(** The same life on the whole row: the probe also stamps
    [last_check_at]. *)
Definition rowStep (max : Z) (now : string) (success : bool)
  (r : option ProxyModel) : option ProxyModel :=
  match r with
  | None => None
  | Some m =>
      if success then Some (SQLite.set_failed 0 now m)
      else if (FailedChecks m + 1 >=? max)%Z then None
      else Some (SQLite.set_failed (FailedChecks m + 1) now m)
  end.

(** A channel delivers every result once, in some order. *)
Definition fair (arrival : list checker.CheckResult -> list checker.CheckResult)
  : Prop :=
  forall l, Permutation (arrival l) l.

(** Ticks whose channels are fair. *)
Definition fairTicks
  (ticks : list (checker.Network * (list checker.CheckResult -> list checker.CheckResult)))
  : Prop :=
  Forall (fun tick => fair (snd tick)) ticks.

(** Ticks on which, besides, the probe of [target] fails. *)
Definition failingTicks (conf : checker.CheckerConfig) (target : string)
  (ticks : list (checker.Network * (list checker.CheckResult -> list checker.CheckResult)))
  : Prop :=
  Forall (fun tick => fair (snd tick) /\ probeOK conf (fst tick) target = false) ticks.

(** A network on which every probe fails at the TCP connect. *)
Definition unreachable : checker.Network := fun _ _ => checker.TCPFailed.

(** A network on which every probe answers 200. *)
Definition reachable : checker.Network := fun _ _ => checker.Responded 200.

Definition inOrder (l : list checker.CheckResult) : list checker.CheckResult := l.

End observe.

(** ** Sample data *)

Module sample.
Import repository router http server.

Definition alice : ProxyModel :=
  {| repository.ID := 1; repository.Username := "alice";
     repository.Password := "secret";
     repository.Target := "203.0.113.5:3128"; FailedChecks := 0;
     LastCheckAt := EmptyString; CreatedAt := "2025-01-01 00:00:00" |}.

Definition bob : ProxyModel :=
  {| repository.ID := 2; repository.Username := "bob";
     repository.Password := "hunter2";
     repository.Target := "198.51.100.7:8080"; FailedChecks := 3;
     LastCheckAt := EmptyString; CreatedAt := "2025-01-02 00:00:00" |}.

Definition db : SQLiteRepository :=
  open [alice; bob] 2 "2025-02-01 00:00:00".

(** The same file while another process holds its lock for one
    statement. *)
Definition locked : SQLiteRepository :=
  {| rows := [alice; bob]; seq := 2; clock := "2025-02-01 00:00:00";
     closed := false; faults := [Some "database is locked"] |}.

Definition conf : checker.CheckerConfig :=
  {| checker.MaxFailedChecks := 0; checker.CheckURL := EmptyString |}.

Definition failing (n : nat)
  : list (checker.Network * (list checker.CheckResult -> list checker.CheckResult)) :=
  repeat (observe.unreachable, observe.inOrder) n.

Definition request (method : string) (headers : Header) : Request :=
  {| Method := method; Host := "example.org:443";
     RequestURI := "http://example.org/"; ReqHeader := headers;
     ReqBody := EmptyString |}.

(** [Proxy-Authorization: Basic base64("alice:secret")] *)
Definition aliceAuth : Header :=
  {[ "Proxy-Authorization" := ["Basic YWxpY2U6c2VjcmV0"] ]}.

(** [Proxy-Authorization: Basic base64("alice:wrong")] *)
Definition wrongAuth : Header :=
  {[ "Proxy-Authorization" := ["Basic YWxpY2U6d3Jvbmc="] ]}.

(** [Proxy-Authorization: Basic base64("carol:secret")] *)
Definition carolAuth : Header :=
  {[ "Proxy-Authorization" := ["Basic Y2Fyb2w6c2VjcmV0"] ]}.

Definition response (code : Z) (status : string) : Response :=
  {| Status := status; StatusCode := code;
     RespHeader := {[ "Set-Cookie" := ["a=1"; "b=2"; "a=1"];
                      "Content-Type" := ["text/html"] ]};
     RespBody := "<html>hello</html>" |}.

Definition upstream (code : Z) (status : string) (h : Hijack) : Upstream :=
  {| dial := fun _ => None; write := None;
     reply := Ok (response code status); hijack := h |}.

Definition refused : Upstream :=
  {| dial := fun _ => Some "dial tcp 203.0.113.5:3128: connect: connection refused";
     write := None; reply := Err "EOF"; hijack := Hijacked |}.



End sample.

(** ** encoding/hex and the console's generated credentials *)

Module hex.

Definition hextable : string := "0123456789abcdef".

Definition digit (n : N) : ascii :=
  match String.get (N.to_nat n) hextable with
  | Some c => c
  | None => "0"%char
  end.

(** [hex.EncodeToString]: two digits per byte, high nibble first. *)
Fixpoint EncodeToString (src : list ascii) : string :=
  match src with
  | [] => EmptyString
  | b :: rest =>
      String (digit (N.shiftr (N_of_ascii b) 4))
        (String (digit (N.land (N_of_ascii b) 15)) (EncodeToString rest))
  end.

Definition isDigit (c : ascii) : bool :=
  let n := N_of_ascii c in
  ((48 <=? n)%N && (n <=? 57)%N) || ((97 <=? n)%N && (n <=? 102)%N).

Fixpoint allDigits (s : string) : bool :=
  match s with
  | EmptyString => true
  | String c rest => isDigit c && allDigits rest
  end.

End hex.

Module console.

(** [randomString(n)]; [b] is the buffer of [n] bytes after
    [rand.Read] has filled it. *)
Definition randomString (n : nat) (b : list ascii) : string :=
  substring 0 n (hex.EncodeToString b).

End console.

(** ** Invariants of the store and of the routing table *)

Module invariant.
Import repository router.

(** The constraints of the table [proxies]: user names, targets and
    row ids are unique, and no row id is beyond the AUTOINCREMENT
    sequence. *)
Definition wellFormed (db : SQLiteRepository) : Prop :=
  List.NoDup (List.map repository.Username (rows db))
  /\ List.NoDup (List.map repository.Target (rows db))
  /\ List.NoDup (List.map repository.ID (rows db))
  /\ Forall (fun m => (repository.ID m <= seq db)%Z) (rows db).

(** The routing table is the projection of the store: under every
    user name it holds the router's view of the stored row, or nothing
    when the store has no such row. *)
Definition synced (pr : ProxyRouter SQLiteRepository) : Prop :=
  forall username,
    cache pr !! username = configOf <$> observe.row username (repo pr).

(** The identity of a row: everything but the failure counter and the
    time of the last check. *)
Definition sameRecord (m m' : ProxyModel) : Prop :=
  repository.ID m' = repository.ID m
  /\ repository.Username m' = repository.Username m
  /\ repository.Password m' = repository.Password m
  /\ repository.Target m' = repository.Target m
  /\ CreatedAt m' = CreatedAt m.

(** The record of [username] in [db], if there is one, is still in [db']
    with the same identity. *)
Definition keeps (username : string) (db db' : SQLiteRepository) : Prop :=
  forall m, observe.row username db = Some m ->
    exists m', observe.row username db' = Some m' /\ sameRecord m m'.

End invariant.

(** * Properties *)

(** ** The routing table *)

Section RouterFacts.
Import repository router.
Context {R : Type} `{IProxyRepository R}.

Lemma GetProxy_found (pr : ProxyRouter R) (username password : string)
  (config : ProxyConfig) :
  GetProxy username password pr = (Some config, true)
  <-> cache pr !! username = Some config /\ Password config = password.
Proof.
  unfold GetProxy.
  destruct (cache pr !! username) as [c|] eqn:Hc.
  - destruct (String.eqb (Password c) password) eqn:Hp; simpl.
    + apply String.eqb_eq in Hp. split.
      * intros [= <-]. auto.
      * intros [[= <-] _]. reflexivity.
    + apply String.eqb_neq in Hp. split; [discriminate |].
      intros [[= <-] Heq]. contradiction.
  - split; [discriminate | intros [? _]; discriminate].
Qed.

Lemma GetProxy_not_found (pr : ProxyRouter R) (username password : string) :
  GetProxy username password pr = (None, false)
  <-> cache pr !! username = None
      \/ exists config, cache pr !! username = Some config
                        /\ Password config <> password.
Proof.
  unfold GetProxy.
  destruct (cache pr !! username) as [c|] eqn:Hc.
  - destruct (String.eqb (Password c) password) eqn:Hp; simpl.
    + apply String.eqb_eq in Hp. split; [discriminate |].
      intros [? | (c' & [= <-] & Hne)]; [discriminate | contradiction].
    + apply String.eqb_neq in Hp. split; [| reflexivity].
      intros _. right. exists c. auto.
  - split; [auto | reflexivity].
Qed.

Lemma GetProxy_total (pr : ProxyRouter R) (username password : string) :
  GetProxy username password pr = (None, false)
  \/ exists config, GetProxy username password pr = (Some config, true).
Proof.
  unfold GetProxy.
  destruct (cache pr !! username) as [c|]; [| auto].
  destruct (negb _); eauto.
Qed.

Lemma AddProxy_present (pr : ProxyRouter R) (username password target : string) :
  is_Some (cache pr !! username) ->
  AddProxy username password target pr = (Some (errAlreadyExists username), pr).
Proof. intros [c Hc]. unfold AddProxy. rewrite Hc. reflexivity. Qed.

Lemma AddProxy_absent (pr : ProxyRouter R) (username password target : string) :
  cache pr !! username = None ->
  repo (snd (AddProxy username password target pr))
  = snd (Create username password target (repo pr))
  /\ match fst (Create username password target (repo pr)) with
     | Err e =>
         fst (AddProxy username password target pr) = Some e
         /\ cache (snd (AddProxy username password target pr)) = cache pr
     | Ok model =>
         fst (AddProxy username password target pr) = None
         /\ cache (snd (AddProxy username password target pr))
            = <[username := configOf model]> (cache pr)
     end.
Proof.
  intros Hc. unfold AddProxy. rewrite Hc.
  destruct (Create username password target (repo pr)) as [[model|e] r']; simpl; auto.
Qed.

Lemma UpdateProxy_absent (pr : ProxyRouter R) (username password target : string) :
  cache pr !! username = None ->
  UpdateProxy username password target pr = (Some (errNotFound username), pr).
Proof. intros Hc. unfold UpdateProxy. rewrite Hc. reflexivity. Qed.

Lemma UpdateProxy_present (pr : ProxyRouter R) (username password target : string)
  (config : ProxyConfig) :
  cache pr !! username = Some config ->
  repo (snd (UpdateProxy username password target pr))
  = snd (Update username password target (repo pr))
  /\ fst (UpdateProxy username password target pr)
     = fst (Update username password target (repo pr))
  /\ cache (snd (UpdateProxy username password target pr))
     = match fst (Update username password target (repo pr)) with
       | Some _ => cache pr
       | None =>
           <[username := {| ID := ID config; Username := Username config;
                            Password := password; Target := target |}]>
             (cache pr)
       end.
Proof.
  intros Hc. unfold UpdateProxy. rewrite Hc.
  destruct (Update username password target (repo pr)) as [[e|] r']; simpl; auto.
Qed.

Lemma RemoveProxy_absent (pr : ProxyRouter R) (username : string) :
  cache pr !! username = None ->
  RemoveProxy username pr = (Some (errNotFound username), pr).
Proof. intros Hc. unfold RemoveProxy. rewrite Hc. reflexivity. Qed.

Lemma RemoveProxy_present (pr : ProxyRouter R) (username : string) :
  is_Some (cache pr !! username) ->
  repo (snd (RemoveProxy username pr)) = snd (Delete username (repo pr))
  /\ fst (RemoveProxy username pr) = fst (Delete username (repo pr))
  /\ cache (snd (RemoveProxy username pr))
     = match fst (Delete username (repo pr)) with
       | Some _ => cache pr
       | None => delete username (cache pr)
       end.
Proof.
  intros [c Hc]. unfold RemoveProxy. rewrite Hc.
  destruct (Delete username (repo pr)) as [[e|] r']; simpl; auto.
Qed.

(** An error of a mutation leaves the map as it was. *)
Lemma AddProxy_error (pr : ProxyRouter R) (username password target : string) :
  fst (AddProxy username password target pr) <> None ->
  cache (snd (AddProxy username password target pr)) = cache pr.
Proof.
  unfold AddProxy. destruct (cache pr !! username); [reflexivity |].
  destruct (Create _ _ _ _) as [[model|e] r']; simpl; [congruence | reflexivity].
Qed.

Lemma UpdateProxy_error (pr : ProxyRouter R) (username password target : string) :
  fst (UpdateProxy username password target pr) <> None ->
  cache (snd (UpdateProxy username password target pr)) = cache pr.
Proof.
  unfold UpdateProxy. destruct (cache pr !! username); [| reflexivity].
  destruct (Update _ _ _ _) as [[e|] r']; simpl; [reflexivity | congruence].
Qed.

Lemma RemoveProxy_error (pr : ProxyRouter R) (username : string) :
  fst (RemoveProxy username pr) <> None ->
  cache (snd (RemoveProxy username pr)) = cache pr.
Proof.
  unfold RemoveProxy. destruct (cache pr !! username); [| reflexivity].
  destruct (Delete _ _) as [[e|] r']; simpl; [reflexivity | congruence].
Qed.

Lemma NewProxyRouter_error (r r' : R) (e : error) :
  FindAll r = (Err e, r') -> NewProxyRouter r = {| repo := r'; cache := ∅ |}.
Proof. intros Hf. unfold NewProxyRouter, loadCache. simpl. rewrite Hf. reflexivity. Qed.

Lemma GetProxy_empty (r : R) (username password : string) :
  GetProxy username password {| repo := r; cache := ∅ |} = (None, false).
Proof. unfold GetProxy. simpl. rewrite lookup_empty. reflexivity. Qed.

Lemma GetProxy_added (pr : ProxyRouter R) (username password target : string)
  (model : ProxyModel) (r' : R) :
  cache pr !! username = None ->
  Create username password target (repo pr) = (Ok model, r') ->
  fst (AddProxy username password target pr) = None
  /\ GetProxy username (repository.Password model)
       (snd (AddProxy username password target pr))
     = (Some (configOf model), true).
Proof.
  intros Hc Hm. unfold AddProxy. rewrite Hc, Hm. simpl. split; [reflexivity |].
  unfold GetProxy. simpl. rewrite lookup_insert_eq. simpl.
  rewrite String.eqb_refl. reflexivity.
Qed.

End RouterFacts.

(** C4: for every table and every (username, password), [GetProxy]
    returns the stored record with [true] exactly when the username is
    present and its stored password equals the given one; it returns
    the single not-found value [(nil, false)] exactly when the username
    is unknown or the password differs, and nothing else. *)
Theorem GetProxy_lookup {R : Type} `{repository.IProxyRepository R}
  (pr : router.ProxyRouter R) (username password : string) :
  (forall config,
      router.GetProxy username password pr = (Some config, true)
      <-> router.cache pr !! username = Some config
          /\ router.Password config = password)
  /\ (router.GetProxy username password pr = (None, false)
      <-> router.cache pr !! username = None
          \/ exists config, router.cache pr !! username = Some config
                            /\ router.Password config <> password)
  /\ (router.GetProxy username password pr = (None, false)
      \/ exists config, router.GetProxy username password pr = (Some config, true)).
Proof.
  split; [| split].
  - intros config. apply GetProxy_found.
  - apply GetProxy_not_found.
  - apply GetProxy_total.
Qed.

(** Alice with her password, alice with a wrong one, and carol, whom
    the table does not know: the last two get the same answer. *)
Example GetProxy_sample :
  let pr := router.NewProxyRouter sample.db in
  router.GetProxy "alice" "secret" pr = (Some (router.configOf sample.alice), true)
  /\ router.GetProxy "alice" "wrong" pr = (None, false)
  /\ router.GetProxy "carol" "secret" pr = (None, false).
Proof. vm_compute. repeat split; reflexivity. Qed.

(** C5: every mutation of the routing table follows the store.
    [AddProxy] on a present username fails with the already-exists
    error and changes neither the table nor the store; [UpdateProxy]
    and [RemoveProxy] on an absent username fail with the not-found
    error, again changing nothing.  Otherwise the store is called on
    the state before the mutation, its error is returned as it is, and
    the map is changed only when the store succeeded: the new entry is
    built from the record the store returned.  Whatever the error, the
    map is the one before the call. *)
Theorem mutations_follow_the_store {R : Type} `{repository.IProxyRepository R}
  (pr : router.ProxyRouter R) (username password target : string) :
  (is_Some (router.cache pr !! username) ->
     router.AddProxy username password target pr
     = (Some (errAlreadyExists username), pr))
  /\ (router.cache pr !! username = None ->
        router.repo (snd (router.AddProxy username password target pr))
        = snd (repository.Create username password target (router.repo pr))
        /\ match fst (repository.Create username password target (router.repo pr)) with
           | Err e =>
               fst (router.AddProxy username password target pr) = Some e
               /\ router.cache (snd (router.AddProxy username password target pr))
                  = router.cache pr
           | Ok model =>
               fst (router.AddProxy username password target pr) = None
               /\ router.cache (snd (router.AddProxy username password target pr))
                  = <[username := router.configOf model]> (router.cache pr)
           end)
  /\ (router.cache pr !! username = None ->
        router.UpdateProxy username password target pr
        = (Some (errNotFound username), pr)
        /\ router.RemoveProxy username pr = (Some (errNotFound username), pr))
  /\ (forall config, router.cache pr !! username = Some config ->
        router.repo (snd (router.UpdateProxy username password target pr))
        = snd (repository.Update username password target (router.repo pr))
        /\ fst (router.UpdateProxy username password target pr)
           = fst (repository.Update username password target (router.repo pr))
        /\ router.cache (snd (router.UpdateProxy username password target pr))
           = match fst (repository.Update username password target (router.repo pr)) with
             | Some _ => router.cache pr
             | None =>
                 <[username := {| router.ID := router.ID config;
                                  router.Username := router.Username config;
                                  router.Password := password;
                                  router.Target := target |}]>
                   (router.cache pr)
             end)
  /\ (is_Some (router.cache pr !! username) ->
        router.repo (snd (router.RemoveProxy username pr))
        = snd (repository.Delete username (router.repo pr))
        /\ fst (router.RemoveProxy username pr)
           = fst (repository.Delete username (router.repo pr))
        /\ router.cache (snd (router.RemoveProxy username pr))
           = match fst (repository.Delete username (router.repo pr)) with
             | Some _ => router.cache pr
             | None => delete username (router.cache pr)
             end)
  /\ (fst (router.AddProxy username password target pr) <> None ->
        router.cache (snd (router.AddProxy username password target pr))
        = router.cache pr)
  /\ (fst (router.UpdateProxy username password target pr) <> None ->
        router.cache (snd (router.UpdateProxy username password target pr))
        = router.cache pr)
  /\ (fst (router.RemoveProxy username pr) <> None ->
        router.cache (snd (router.RemoveProxy username pr)) = router.cache pr).
Proof.
  repeat split.
  - apply AddProxy_present; assumption.
  - apply AddProxy_absent; assumption.
  - apply AddProxy_absent; assumption.
  - apply UpdateProxy_absent; assumption.
  - apply RemoveProxy_absent; assumption.
  - eapply UpdateProxy_present; eassumption.
  - eapply UpdateProxy_present; eassumption.
  - eapply UpdateProxy_present; eassumption.
  - apply RemoveProxy_present; assumption.
  - apply RemoveProxy_present; assumption.
  - apply RemoveProxy_present; assumption.
  - apply AddProxy_error.
  - apply UpdateProxy_error.
  - apply RemoveProxy_error.
Qed.

(** The theorem at work: a second [AddProxy] of alice is rejected with
    nothing changed, and an [AddProxy] of carol while the database file
    is locked returns the store's error and leaves the table alone. *)
Lemma mutations_follow_the_store_witness :
  let pr := router.NewProxyRouter sample.db in
  let busy := {| router.repo := sample.locked; router.cache := router.cache pr |} in
  router.AddProxy "alice" "other" "192.0.2.1:3128" pr
  = (Some (errAlreadyExists "alice"), pr)
  /\ router.cache (snd (router.AddProxy "carol" "secret" "192.0.2.1:3128" busy))
     = router.cache busy.
Proof.
  intros pr busy. split.
  - apply (mutations_follow_the_store pr "alice" "other" "192.0.2.1:3128").
    vm_compute. eexists. reflexivity.
  - apply (mutations_follow_the_store busy "carol" "secret" "192.0.2.1:3128").
    vm_compute. discriminate.
Defined.

(** C10: when [FindAll] fails while the router is built,
    [NewProxyRouter] drops the error and returns a router with an empty
    table: every lookup on it is not-found and [GetAllProxies] is
    empty.  A record is found again once [AddProxy] has stored it. *)
Theorem NewProxyRouter_drops_load_error {R : Type} `{repository.IProxyRepository R}
  (r r' : R) (e : error) :
  repository.FindAll r = (Err e, r') ->
  router.NewProxyRouter r = {| router.repo := r'; router.cache := ∅ |}
  /\ (forall username password,
        router.GetProxy username password (router.NewProxyRouter r) = (None, false))
  /\ router.GetAllProxies (router.NewProxyRouter r) = []
  /\ (forall username password target model r'',
        repository.Create username password target r' = (Ok model, r'') ->
        fst (router.AddProxy username password target (router.NewProxyRouter r)) = None
        /\ router.GetProxy username (repository.Password model)
             (snd (router.AddProxy username password target (router.NewProxyRouter r)))
           = (Some (router.configOf model), true)).
Proof.
  intros Hf. rewrite (NewProxyRouter_error _ _ _ Hf).
  split; [reflexivity |]. split; [| split].
  - intros. apply GetProxy_empty.
  - unfold router.GetAllProxies. simpl. rewrite map_to_list_empty. reflexivity.
  - intros username password target model r'' Hc.
    eapply GetProxy_added; [apply lookup_empty | exact Hc].
Qed.

(** The theorem at work: the database file is locked during the load,
    the stored alice is not found, and carol is found after her
    [AddProxy]. *)
Lemma NewProxyRouter_drops_load_error_witness :
  repository.FindAll sample.locked
  = (Err "failed to query proxies: database is locked", sample.db)
  /\ router.GetProxy "alice" "secret" (router.NewProxyRouter sample.locked)
     = (None, false)
  /\ router.GetProxy "carol" "secret"
       (snd (router.AddProxy "carol" "secret" "192.0.2.1:3128"
               (router.NewProxyRouter sample.locked)))
     = (Some {| router.ID := 3; router.Username := "carol";
                router.Password := "secret";
                router.Target := "192.0.2.1:3128" |}, true).
Proof.
  pose proof (NewProxyRouter_drops_load_error sample.locked sample.db
                "failed to query proxies: database is locked" eq_refl)
    as (_ & Hget & _ & Hadd).
  split; [reflexivity |]. split; [apply Hget |].
  exact (proj2 (Hadd "carol" "secret" "192.0.2.1:3128" _ _ eq_refl)).
Defined.

(** ** The request dispatcher *)

Section ParseFacts.
Import strings.

Lemma cut_Some (sep : ascii) (s before after : string) :
  cut sep s = Some (before, after)
  <-> s = before ++ String sep after /\ contains sep before = false.
Proof.
  revert before. induction s as [|c s IH]; intros before; simpl.
  - split; [discriminate |]. intros [Hs _]. destruct before; discriminate.
  - destruct (Ascii.eqb c sep) eqn:Hc.
    + apply Ascii.eqb_eq in Hc. subst c. split.
      * intros [= <- <-]. auto.
      * intros [Hs Hn]. destruct before as [|b before]; simpl in *.
        -- injection Hs as ->. reflexivity.
        -- injection Hs as <- _. rewrite Ascii.eqb_refl in Hn. discriminate.
    + destruct (cut sep s) as [[b a]|] eqn:Hcut.
      * split.
        -- intros [= <- <-]. simpl. rewrite Hc. simpl.
           destruct (proj1 (IH b) eq_refl) as [-> Hn]. auto.
        -- intros [Hs Hn]. destruct before as [|b' before]; simpl in *.
           ++ injection Hs as -> _. rewrite Ascii.eqb_refl in Hc. discriminate.
           ++ injection Hs as <- Hs. rewrite Hc in Hn. simpl in Hn.
              assert (Some (b, a) = Some (before, after)) as [= -> ->]
                by (apply IH; auto).
              reflexivity.
      * split; [discriminate |]. intros [Hs Hn].
        destruct before as [|b' before]; simpl in *.
        -- injection Hs as -> _. rewrite Ascii.eqb_refl in Hc. discriminate.
        -- injection Hs as <- Hs. rewrite Hc in Hn. simpl in Hn.
           assert (None = Some (before, after)) by (apply IH; auto).
           discriminate.
Qed.

Lemma cut_None (sep : ascii) (s : string) :
  cut sep s = None <-> contains sep s = false.
Proof.
  induction s as [|c s IH]; simpl; [tauto |].
  destruct (Ascii.eqb c sep); simpl.
  - split; discriminate.
  - destruct (cut sep s) as [[b a]|].
    + split; [discriminate |]. intros Hn. apply IH in Hn. discriminate.
    + split; [intros _; apply IH; reflexivity | reflexivity].
Qed.

Lemma contains_cut (sep : ascii) (s : string) :
  contains sep s = true <-> exists before after, cut sep s = Some (before, after).
Proof.
  destruct (cut sep s) as [[b a]|] eqn:Hcut.
  - split; [eauto |]. intros _.
    destruct (contains sep s) eqn:Hn; [reflexivity |].
    apply cut_None in Hn. congruence.
  - apply cut_None in Hcut. rewrite Hcut.
    split; [discriminate | intros (? & ? & ?); discriminate].
Qed.

Lemma cut_scheme (authHeader payload : string) :
  cut " "%char authHeader = Some ("Basic", payload)
  <-> authHeader = "Basic " ++ payload.
Proof.
  rewrite cut_Some. simpl. split; [intros [-> _]; reflexivity | auto].
Qed.

End ParseFacts.

Lemma parseProxyAuth_ok (authHeader username password : string) :
  server.parseProxyAuth authHeader = (username, password, true)
  <-> exists payload decoded,
        authHeader = "Basic " ++ payload
        /\ base64.DecodeString payload = Some decoded
        /\ strings.cut ":"%char decoded = Some (username, password).
Proof.
  unfold server.parseProxyAuth, strings.SplitN2. split.
  - destruct (String.eqb authHeader EmptyString); [discriminate |].
    destruct (strings.cut " "%char authHeader) as [[scheme payload]|] eqn:Hcut;
      [| discriminate].
    destruct (String.eqb scheme "Basic") eqn:Hs; simpl; [| discriminate].
    apply String.eqb_eq in Hs. subst scheme. apply cut_scheme in Hcut.
    destruct (base64.DecodeString payload) as [decoded|] eqn:Hd; [| discriminate].
    destruct (strings.cut ":"%char decoded) as [[u p]|] eqn:Hc; [| discriminate].
    intros [= <- <-]. eauto.
  - intros (payload & decoded & -> & Hd & Hc).
    replace (strings.cut " "%char ("Basic " ++ payload))
      with (Some ("Basic", payload))
      by (symmetry; apply cut_scheme; reflexivity).
    cbn -[base64.DecodeString strings.cut String.append].
    rewrite Hd, Hc. reflexivity.
Qed.

Lemma parseProxyAuth_fail (authHeader : string) :
  server.parseProxyAuth authHeader = (EmptyString, EmptyString, false)
  \/ snd (server.parseProxyAuth authHeader) = true.
Proof.
  unfold server.parseProxyAuth, strings.SplitN2.
  destruct (String.eqb authHeader EmptyString); [auto |].
  destruct (strings.cut " "%char authHeader) as [[scheme payload]|]; [| auto].
  destruct (negb _); [auto |].
  destruct (base64.DecodeString payload) as [decoded|]; [| auto].
  destruct (strings.cut ":"%char decoded) as [[u p]|]; auto.
Qed.

(** C8: [parseProxyAuth] succeeds exactly on a value made of the scheme
    [Basic], one space, and a payload the base64 decoder accepts and
    whose decoding holds a colon.  The user name is the text before the
    first colon and the password everything after it, so the password
    may be empty or hold colons.  Every other value, the empty one of a
    missing header included, gives the one result [("", "", false)]. *)
Theorem parseProxyAuth_basic (authHeader : string) :
  (forall username password,
      server.parseProxyAuth authHeader = (username, password, true)
      <-> exists payload,
            authHeader = "Basic " ++ payload
            /\ base64.DecodeString payload
               = Some (username ++ String ":"%char password)
            /\ strings.contains ":"%char username = false)
  /\ (snd (server.parseProxyAuth authHeader) = true
      <-> exists payload decoded,
            authHeader = "Basic " ++ payload
            /\ base64.DecodeString payload = Some decoded
            /\ strings.contains ":"%char decoded = true)
  /\ (server.parseProxyAuth authHeader = (EmptyString, EmptyString, false)
      \/ snd (server.parseProxyAuth authHeader) = true).
Proof.
  split; [| split].
  - intros username password. rewrite parseProxyAuth_ok. split.
    + intros (payload & decoded & Hh & Hd & Hc).
      apply cut_Some in Hc as [-> Hn]. eauto.
    + intros (payload & Hh & Hd & Hn). exists payload. eexists.
      split; [exact Hh |]. split; [exact Hd |]. apply cut_Some. auto.
  - split.
    + destruct (server.parseProxyAuth authHeader) as [[u p] ok] eqn:Hp.
      simpl. intros ->. apply parseProxyAuth_ok in Hp
        as (payload & decoded & Hh & Hd & Hc).
      exists payload, decoded. split; [exact Hh |]. split; [exact Hd |].
      apply contains_cut. eauto.
    + intros (payload & decoded & Hh & Hd & Hc).
      apply contains_cut in Hc as (u & p & Hc).
      assert (server.parseProxyAuth authHeader = (u, p, true)) as ->
        by (apply parseProxyAuth_ok; eauto).
      reflexivity.
  - apply parseProxyAuth_fail.
Qed.

Example parseProxyAuth_alice :
  server.parseProxyAuth "Basic YWxpY2U6c2VjcmV0" = ("alice", "secret", true).
Proof. reflexivity. Qed.

(** base64("a:b:c"): only the first colon splits. *)
Example parseProxyAuth_colons :
  server.parseProxyAuth "Basic YTpiOmM=" = ("a", "b:c", true).
Proof. reflexivity. Qed.

(** base64("alice:"): an empty password. *)
Example parseProxyAuth_empty_password :
  server.parseProxyAuth "Basic YWxpY2U6" = ("alice", EmptyString, true).
Proof. reflexivity. Qed.

(** A missing header, another scheme, a broken payload, no colon. *)
Example parseProxyAuth_failures :
  List.map server.parseProxyAuth
    [EmptyString; "Bearer YWxpY2U6c2VjcmV0"; "Basic YWxpY2U6c2VjcmV"; "Basic YWxpY2U="]
  = repeat (EmptyString, EmptyString, false) 4.
Proof. reflexivity. Qed.

Section DispatcherFacts.
Import repository router http server.
Context {R : Type} `{IProxyRepository R}.

Lemma handleHTTP_no_credentials (pr : ProxyRouter R) (up : Upstream) (r : Request) :
  snd (parseProxyAuth (Get "Proxy-Authorization" (ReqHeader r))) = false ->
  handleHTTP pr up newResponseWriter r = unauthorized "Proxy Authentication Required".
Proof.
  unfold handleHTTP.
  destruct (parseProxyAuth _) as [[u p] ok]. simpl. intros ->. reflexivity.
Qed.

Lemma handleHTTP_lookup_failed (pr : ProxyRouter R) (up : Upstream) (r : Request)
  (username password : string) :
  parseProxyAuth (Get "Proxy-Authorization" (ReqHeader r)) = (username, password, true) ->
  snd (GetProxy username password pr) = false ->
  handleHTTP pr up newResponseWriter r = unauthorized "Invalid credentials".
Proof.
  unfold handleHTTP. intros -> Hv.
  destruct (GetProxy username password pr) as [config valid].
  simpl in Hv. subst valid. reflexivity.
Qed.

Lemma handleHTTP_authorized (pr : ProxyRouter R) (up : Upstream) (r : Request)
  (username password : string) (config : ProxyConfig) :
  parseProxyAuth (Get "Proxy-Authorization" (ReqHeader r)) = (username, password, true) ->
  GetProxy username password pr = (Some config, true) ->
  handleHTTP pr up newResponseWriter r
  = if String.eqb (Method r) MethodConnect
    then handleConnect up newResponseWriter r config
    else handleHTTPRequest up newResponseWriter r config.
Proof. unfold handleHTTP. intros -> ->. reflexivity. Qed.

End DispatcherFacts.

(** C3, as the code has it: a request whose header is missing or
    malformed and a request whose credentials fail the lookup are both
    answered 407 with the same header map, the challenge
    [Basic realm="Proxy"] in it, and neither reaches an upstream; the
    bodies are two different texts, [Proxy Authentication Required] for
    the first cause and [Invalid credentials] for the second. *)
Theorem auth_failures_share_status_and_challenge
  {R : Type} `{repository.IProxyRepository R}
  (pr : router.ProxyRouter R) (up1 up2 : server.Upstream)
  (r1 r2 : http.Request) (username password : string) :
  snd (server.parseProxyAuth (http.Get "Proxy-Authorization" (http.ReqHeader r1)))
  = false ->
  server.parseProxyAuth (http.Get "Proxy-Authorization" (http.ReqHeader r2))
  = (username, password, true) ->
  snd (router.GetProxy username password pr) = false ->
  let e1 := server.handleHTTP pr up1 http.newResponseWriter r1 in
  let e2 := server.handleHTTP pr up2 http.newResponseWriter r2 in
  http.wroteHeader (server.w e1) = Some 407%Z
  /\ http.wroteHeader (server.w e2) = Some 407%Z
  /\ http.header (server.w e1) = http.header (server.w e2)
  /\ http.Values "Proxy-Authenticate" (http.header (server.w e1))
     = [server.challenge]
  /\ http.written (server.w e1) = "Proxy Authentication Required" ++ http.LF
  /\ http.written (server.w e2) = "Invalid credentials" ++ http.LF
  /\ server.dialed e1 = [] /\ server.dialed e2 = []
  /\ server.hijacked e1 = false /\ server.hijacked e2 = false.
Proof.
  intros H1 H2 H3 e1 e2. subst e1 e2.
  rewrite (handleHTTP_no_credentials pr up1 r1 H1).
  rewrite (handleHTTP_lookup_failed pr up2 r2 username password H2 H3).
  vm_compute. repeat split; reflexivity.
Qed.

(** The theorem at work: a request without the header, and a request
    with the credentials of carol, whom the table does not know. *)
Lemma auth_failures_share_status_and_challenge_witness :
  let pr := router.NewProxyRouter sample.db in
  let e1 := server.handleHTTP pr sample.refused http.newResponseWriter
              (sample.request "GET" ∅) in
  let e2 := server.handleHTTP pr sample.refused http.newResponseWriter
              (sample.request "GET" sample.carolAuth) in
  http.wroteHeader (server.w e1) = Some 407%Z
  /\ http.wroteHeader (server.w e2) = Some 407%Z
  /\ http.header (server.w e1) = http.header (server.w e2).
Proof.
  intros pr e1 e2.
  pose proof (auth_failures_share_status_and_challenge pr sample.refused sample.refused
                (sample.request "GET" ∅) (sample.request "GET" sample.carolAuth)
                "carol" "secret" eq_refl eq_refl eq_refl)
    as (Ha & Hb & Hc & _).
  exact (conj Ha (conj Hb Hc)).
Defined.

(** C3 as stated fails: the two causes are told apart by the body. *)
Lemma auth_failures_differ_in_body :
  let pr := router.NewProxyRouter sample.db in
  let missing := sample.request "GET" ∅ in
  let unknown := sample.request "GET" sample.carolAuth in
  server.parseProxyAuth (http.Get "Proxy-Authorization" (http.ReqHeader missing))
  = (EmptyString, EmptyString, false)
  /\ server.parseProxyAuth (http.Get "Proxy-Authorization" (http.ReqHeader unknown))
     = ("carol", "secret", true)
  /\ router.GetProxy "carol" "secret" pr = (None, false)
  /\ http.written (server.w (server.handleHTTP pr sample.refused
                               http.newResponseWriter missing))
     = "Proxy Authentication Required" ++ http.LF
  /\ http.written (server.w (server.handleHTTP pr sample.refused
                               http.newResponseWriter unknown))
     = "Invalid credentials" ++ http.LF
  /\ server.handleHTTP pr sample.refused http.newResponseWriter missing
     <> server.handleHTTP pr sample.refused http.newResponseWriter unknown.
Proof.
  vm_compute. repeat split; try reflexivity. discriminate.
Qed.

(** ** The tunnel and forward engine *)

Section HeaderFacts.
Import http server.







End HeaderFacts.






(** ** The splice of a tunnel *)

Section SpliceFacts.
Import server.

Lemma step_closed (s : Splice) (e : Event) :
  (handlerReturned s = true <-> upstreamToClient s = Returned) ->
  (clientOpen s = false <-> handlerReturned s = true) ->
  (targetOpen s = false <-> handlerReturned s = true) ->
  (handlerReturned (step s e) = true <-> upstreamToClient (step s e) = Returned)
  /\ (clientOpen (step s e) = false <-> handlerReturned (step s e) = true)
  /\ (targetOpen (step s e) = false <-> handlerReturned (step s e) = true).
Proof. destruct e; simpl; tauto. Qed.

Lemma run_snoc (events : list Event) (e : Event) :
  run (events ++ [e]) = step (run events) e.
Proof. unfold run. rewrite fold_left_app. reflexivity. Qed.

Lemma run_invariant (events : list Event) :
  (handlerReturned (run events) = true <-> upstreamToClient (run events) = Returned)
  /\ (clientOpen (run events) = false <-> handlerReturned (run events) = true)
  /\ (targetOpen (run events) = false <-> handlerReturned (run events) = true).
Proof.
  induction events as [|e events IH] using rev_ind.
  - vm_compute. repeat split; discriminate.
  - rewrite run_snoc. destruct IH as (Ha & Hb & Hc). apply step_closed; assumption.
Qed.

Lemma run_returned (events : list Event) :
  upstreamToClient (run events) = Returned <-> In UpstreamToClientReturns events.
Proof.
  induction events as [|e events IH] using rev_ind.
  - vm_compute. split; [discriminate | intros []].
  - rewrite run_snoc, in_app_iff. destruct e; simpl.
    + rewrite IH. split; [auto | intros [?|[?|[]]]; [assumption | discriminate]].
    + split; auto.
Qed.

Lemma run_goroutine (events : list Event) :
  clientToUpstream (run events) = Returned <-> In ClientToUpstreamReturns events.
Proof.
  induction events as [|e events IH] using rev_ind.
  - vm_compute. split; [discriminate | intros []].
  - rewrite run_snoc, in_app_iff. destruct e; simpl.
    + split; auto.
    + rewrite IH. split; [auto | intros [?|[?|[]]]; [assumption | discriminate]].
Qed.

End SpliceFacts.

(** C9, as the code has it: after any sequence of returns of the two
    copies, the handler has returned, and the client and the upstream
    connection are closed, exactly when the upstream-to-client copy,
    the one the handler runs, has returned; the return of the
    client-to-upstream copy, which runs in a goroutine nobody waits
    for, closes nothing and does not end the handler. *)
Theorem tunnel_ends_with_upstream_copy (events : list server.Event) :
  let s := server.run events in
  (server.handlerReturned s = true <-> In server.UpstreamToClientReturns events)
  /\ (server.clientOpen s = false <-> In server.UpstreamToClientReturns events)
  /\ (server.targetOpen s = false <-> In server.UpstreamToClientReturns events)
  /\ (server.clientToUpstream s = server.Returned
      <-> In server.ClientToUpstreamReturns events).
Proof.
  intros s. subst s.
  destruct (run_invariant events) as (Ha & Hb & Hc).
  pose proof (run_returned events) as Hd.
  pose proof (run_goroutine events) as He.
  tauto.
Qed.

(** C9 as stated fails: when only the client-to-upstream copy has
    returned, both connections are still open and the handler still
    runs; and when only the upstream-to-client copy has returned, the
    handler has returned while the other copy has not. *)
Lemma client_side_end_closes_nothing :
  (server.clientOpen (server.run [server.ClientToUpstreamReturns]) = true
   /\ server.targetOpen (server.run [server.ClientToUpstreamReturns]) = true
   /\ server.handlerReturned (server.run [server.ClientToUpstreamReturns]) = false)
  /\ (server.handlerReturned (server.run [server.UpstreamToClientReturns]) = true
      /\ server.clientToUpstream (server.run [server.UpstreamToClientReturns])
         = server.Copying).
Proof. vm_compute. repeat split; reflexivity. Qed.

(** ** The SQLite store *)

Section TableFacts.
Import repository SQLite observe.

Lemma has_username_true (u : string) (m : ProxyModel) :
  has_username u m = true <-> Username m = u.
Proof. unfold has_username. apply String.eqb_eq. Qed.

Lemma has_username_false (u : string) (m : ProxyModel) :
  has_username u m = false <-> Username m <> u.
Proof. unfold has_username. apply String.eqb_neq. Qed.

Lemma find_update_where (k u : string) (f : ProxyModel -> ProxyModel)
  (l : list ProxyModel) :
  (forall m, Username (f m) = Username m) ->
  List.find (has_username k) (update_where u f l)
  = if String.eqb k u then option_map f (List.find (has_username k) l)
    else List.find (has_username k) l.
Proof.
  intros Hf. induction l as [|m l IH]; simpl.
  - destruct (String.eqb k u); reflexivity.
  - destruct (has_username u m) eqn:Hu.
    + unfold has_username at 1. rewrite Hf. fold (has_username k m).
      destruct (has_username k m) eqn:Hk.
      * apply has_username_true in Hu, Hk.
        assert (k = u) as -> by congruence. rewrite String.eqb_refl. reflexivity.
      * exact IH.
    + destruct (has_username k m) eqn:Hk; [| exact IH].
      apply has_username_true in Hk. apply has_username_false in Hu.
      destruct (String.eqb_spec k u); [congruence | reflexivity].
Qed.

Lemma find_delete (k u : string) (l : list ProxyModel) :
  List.find (has_username k) (List.filter (fun m => negb (has_username u m)) l)
  = if String.eqb k u then None else List.find (has_username k) l.
Proof.
  induction l as [|m l IH]; simpl.
  - destruct (String.eqb k u); reflexivity.
  - destruct (has_username u m) eqn:Hu; simpl.
    + rewrite IH. destruct (String.eqb_spec k u) as [->|Hne]; [reflexivity |].
      destruct (has_username k m) eqn:Hk; [| reflexivity].
      apply has_username_true in Hu, Hk. congruence.
    + destruct (has_username k m) eqn:Hk; [| exact IH].
      apply has_username_true in Hk. apply has_username_false in Hu.
      destruct (String.eqb_spec k u); [congruence | reflexivity].
Qed.

Lemma rowsAffected_zero (u : string) (l : list ProxyModel) :
  Nat.eqb (rowsAffected u l) 0 = true <-> List.find (has_username u) l = None.
Proof.
  unfold rowsAffected. induction l as [|m l IH]; simpl.
  - tauto.
  - destruct (has_username u m); simpl; [split; discriminate | exact IH].
Qed.

Lemma rowsAffected_found (u : string) (l : list ProxyModel) (m : ProxyModel) :
  List.find (has_username u) l = Some m -> Nat.eqb (rowsAffected u l) 0 = false.
Proof.
  intros Hf. destruct (Nat.eqb (rowsAffected u l) 0) eqn:Hz; [| reflexivity].
  apply rowsAffected_zero in Hz. congruence.
Qed.

Lemma usernames_update_where (u : string) (f : ProxyModel -> ProxyModel)
  (l : list ProxyModel) :
  (forall m, Username (f m) = Username m) ->
  List.map Username (update_where u f l) = List.map Username l.
Proof.
  intros Hf. induction l as [|m l IH]; simpl; [reflexivity |].
  rewrite IH. destruct (has_username u m); [rewrite Hf |]; reflexivity.
Qed.

Lemma NoDup_usernames_filter (p : ProxyModel -> bool) (l : list ProxyModel) :
  List.NoDup (List.map Username l) ->
  List.NoDup (List.map Username (List.filter p l)).
Proof.
  induction l as [|m l IH]; simpl; [auto |].
  intros Hnd. apply List.NoDup_cons_iff in Hnd as [Hm Hnd].
  destruct (p m); simpl; [| auto].
  apply List.NoDup_cons; [| auto].
  intros Hin. apply Hm. apply in_map_iff in Hin as (m' & Heq & Hin).
  apply filter_In in Hin as [Hin _]. apply in_map_iff. eauto.
Qed.

Lemma find_unique (u : string) (l : list ProxyModel) (m : ProxyModel) :
  List.NoDup (List.map Username l) -> In m l -> Username m = u ->
  List.find (has_username u) l = Some m.
Proof.
  induction l as [|m' l IH]; simpl; [tauto |].
  intros Hnd Hin Hu. apply List.NoDup_cons_iff in Hnd as [Hm Hnd].
  destruct Hin as [->|Hin].
  - apply has_username_true in Hu. rewrite Hu. reflexivity.
  - destruct (has_username u m') eqn:Hk; [| auto].
    apply has_username_true in Hk. exfalso. apply Hm.
    apply in_map_iff. exists m. split; [congruence | exact Hin].
Qed.

Lemma find_username (u : string) (l : list ProxyModel) (m : ProxyModel) :
  List.find (has_username u) l = Some m -> In m l /\ Username m = u.
Proof.
  intros Hf. apply find_some in Hf as [Hin Hu].
  apply has_username_true in Hu. auto.
Qed.

Lemma find_absent (u : string) (l : list ProxyModel) :
  List.find (has_username u) l = None <-> ~ In u (List.map Username l).
Proof.
  split.
  - intros Hf Hin. apply in_map_iff in Hin as (m & Hu & Hin).
    apply (find_none _ _ Hf) in Hin. apply has_username_false in Hin. contradiction.
  - intros Hn. destruct (List.find (has_username u) l) as [m|] eqn:Hf; [| reflexivity].
    apply find_username in Hf as [Hin Hu]. exfalso. apply Hn.
    apply in_map_iff. eauto.
Qed.

Lemma driver_healthy (db : SQLiteRepository) :
  healthy db -> driver db = (None, db).
Proof. intros [Hc Hf]. unfold driver. rewrite Hc, Hf. reflexivity. Qed.

Lemma healthy_with_rows (l : list ProxyModel) (s : Z) (db : SQLiteRepository) :
  healthy db -> healthy (with_rows l s db).
Proof. intros H. exact H. Qed.

End TableFacts.

Section StoreFacts.
Import repository SQLite observe.

Lemma set_failed_username (n : Z) (now : string) (m : ProxyModel) :
  Username (set_failed n now m) = Username m.
Proof. reflexivity. Qed.

Lemma Reset_healthy (u : string) (db : SQLiteRepository) :
  healthy db ->
  let db' := snd (SQLite.ResetFailedChecks u db) in
  healthy db' /\ clock db' = clock db
  /\ List.map Username (rows db') = List.map Username (rows db)
  /\ forall k, row k db'
               = if String.eqb k u
                 then option_map (set_failed 0 (clock db)) (row k db)
                 else row k db.
Proof.
  intros Hh. unfold SQLite.ResetFailedChecks. rewrite (driver_healthy db Hh).
  destruct (Nat.eqb (rowsAffected u (rows db)) 0) eqn:Hz; simpl.
  - repeat split; try apply Hh. intros k.
    destruct (String.eqb_spec k u) as [->|]; [| reflexivity].
    apply rowsAffected_zero in Hz. unfold row. rewrite Hz. reflexivity.
  - repeat split; try apply Hh.
    + apply usernames_update_where. reflexivity.
    + intros k. unfold row. simpl. apply find_update_where. reflexivity.
Qed.

Lemma Increment_healthy (u : string) (db : SQLiteRepository) :
  healthy db ->
  let db' := snd (SQLite.IncrementFailedChecks u db) in
  healthy db' /\ clock db' = clock db
  /\ List.map Username (rows db') = List.map Username (rows db)
  /\ (fst (SQLite.IncrementFailedChecks u db) = None <-> row u db <> None)
  /\ forall k, row k db'
               = if String.eqb k u
                 then option_map
                        (fun m => set_failed (FailedChecks m + 1) (clock db) m)
                        (row k db)
                 else row k db.
Proof.
  intros Hh. unfold SQLite.IncrementFailedChecks. rewrite (driver_healthy db Hh).
  destruct (Nat.eqb (rowsAffected u (rows db)) 0) eqn:Hz; simpl.
  - apply rowsAffected_zero in Hz. fold (row u db) in Hz.
    repeat split; try apply Hh; try congruence. intros k.
    destruct (String.eqb_spec k u) as [->|]; [| reflexivity].
    rewrite Hz. reflexivity.
  - repeat split; try apply Hh.
    + apply usernames_update_where. reflexivity.
    + intros _ Hn. fold (row u db) in Hz. unfold row in Hn.
      apply rowsAffected_zero in Hn. congruence.
    + intros k. unfold row. simpl. apply find_update_where. reflexivity.
Qed.

Lemma Find_healthy (u : string) (db : SQLiteRepository) :
  healthy db ->
  SQLite.FindByUsername u db = (Ok (option_map scan (row u db)), db).
Proof.
  intros Hh. unfold SQLite.FindByUsername. rewrite (driver_healthy db Hh). reflexivity.
Qed.

Lemma FindAll_healthy (db : SQLiteRepository) :
  healthy db -> SQLite.FindAll db = (Ok (List.map scan (rows db)), db).
Proof.
  intros Hh. unfold SQLite.FindAll. rewrite (driver_healthy db Hh). reflexivity.
Qed.

Lemma Delete_healthy (u : string) (db : SQLiteRepository) :
  healthy db ->
  let db' := snd (SQLite.Delete u db) in
  healthy db' /\ clock db' = clock db
  /\ (unique db -> unique db')
  /\ forall k, row k db' = if String.eqb k u then None else row k db.
Proof.
  intros Hh. unfold SQLite.Delete. rewrite (driver_healthy db Hh).
  destruct (Nat.eqb (rowsAffected u (rows db)) 0) eqn:Hz; simpl.
  - repeat split; try apply Hh; [auto |]. intros k.
    destruct (String.eqb_spec k u) as [->|]; [| reflexivity].
    apply rowsAffected_zero in Hz. exact Hz.
  - repeat split; try apply Hh.
    + unfold unique. simpl. apply NoDup_usernames_filter.
    + intros k. unfold row. simpl. apply find_delete.
Qed.

(** One result of a probe, seen on the row of any user [k]. *)
Lemma handleResult_row (conf : checker.CheckerConfig) (result : checker.CheckResult)
  (db : SQLiteRepository) :
  healthy db ->
  let db' := checker.handleResult conf result db in
  healthy db' /\ clock db' = clock db
  /\ (unique db -> unique db')
  /\ forall k, row k db'
               = if String.eqb k (checker.Username result)
                 then rowStep (checker.maxFailedChecks conf) (clock db)
                        (checker.Success result) (row k db)
                 else row k db.
Proof.
  intros Hh. unfold checker.handleResult.
  change (@repository.ResetFailedChecks SQLiteRepository _) with SQLite.ResetFailedChecks.
  change (@repository.IncrementFailedChecks SQLiteRepository _) with SQLite.IncrementFailedChecks.
  change (@repository.FindByUsername SQLiteRepository _) with SQLite.FindByUsername.
  change (@repository.Delete SQLiteRepository _) with SQLite.Delete.
  set (u := checker.Username result).
  destruct (checker.Success result).
  - destruct (Reset_healthy u db Hh) as (Hh' & Hc & Hu & Hr).
    split; [exact Hh' |]. split; [exact Hc |]. split.
    + unfold unique. intros Hnd. simpl in Hu. rewrite Hu. exact Hnd.
    + intros k. simpl in Hr. rewrite Hr.
      destruct (String.eqb k u); [| reflexivity].
      destruct (row k db); reflexivity.
  - destruct (Increment_healthy u db Hh) as (Hh1 & Hc1 & Hu1 & He1 & Hr1).
    destruct (SQLite.IncrementFailedChecks u db) as [[e|] db1] eqn:Hinc; simpl in *.
    + split; [exact Hh1 |]. split; [exact Hc1 |]. split.
      * unfold unique. intros Hnd. rewrite Hu1. exact Hnd.
      * intros k. rewrite Hr1. destruct (String.eqb_spec k u) as [->|]; [| reflexivity].
        destruct (row u db) as [m|] eqn:Hm; [| reflexivity].
        exfalso. assert (Some e = None) by (apply He1; discriminate). discriminate.
    + rewrite (Find_healthy u db1 Hh1). rewrite (Hr1 u), String.eqb_refl.
      destruct (row u db) as [m|] eqn:Hm; simpl.
      * destruct (FailedChecks m + 1 >=? checker.maxFailedChecks conf)%Z eqn:Hmax.
        -- destruct (Delete_healthy u db1 Hh1) as (Hh2 & Hc2 & Hu2 & Hr2).
           split; [exact Hh2 |]. split; [congruence |]. split.
           ++ intros Hnd. apply Hu2. unfold unique in *. rewrite Hu1. exact Hnd.
           ++ intros k. simpl in Hr2. rewrite Hr2, Hr1.
              destruct (String.eqb_spec k u) as [->|]; [| reflexivity].
              rewrite Hm. simpl. rewrite Hmax. reflexivity.
        -- split; [exact Hh1 |]. split; [exact Hc1 |]. split.
           ++ unfold unique. intros Hnd. rewrite Hu1. exact Hnd.
           ++ intros k. rewrite Hr1.
              destruct (String.eqb_spec k u) as [->|]; [| reflexivity].
              rewrite Hm. simpl. rewrite Hmax. reflexivity.
      * exfalso. assert (None <> None) as Hn by (apply He1; reflexivity).
        apply Hn. reflexivity.
Qed.

End StoreFacts.

(** ** The health checker *)

Section CheckerFacts.
Import repository SQLite observe.

Lemma checkSingleProxy_result (conf : checker.CheckerConfig) (net : checker.Network)
  (proxy : ProxyModel) :
  checker.Username (checker.checkSingleProxy conf net proxy) = Username proxy
  /\ checker.Success (checker.checkSingleProxy conf net proxy)
     = probeOK conf net (Target proxy).
Proof.
  unfold checker.checkSingleProxy, probeOK.
  destruct (net (Target proxy) _) as [| | | |code]; simpl; auto.
  destruct ((200 <=? code)%Z && (code <? 400)%Z); simpl; auto.
Qed.

Lemma fold_results_row (conf : checker.CheckerConfig)
  (results : list checker.CheckResult) :
  List.NoDup (List.map checker.Username results) ->
  forall db, healthy db ->
    let db' := fold_left (fun r result => checker.handleResult conf result r)
                 results db in
    healthy db' /\ clock db' = clock db /\ (unique db -> unique db')
    /\ forall k,
         (forall result, In result results -> checker.Username result = k ->
            row k db' = rowStep (checker.maxFailedChecks conf) (clock db)
                          (checker.Success result) (row k db))
         /\ ((forall result, In result results -> checker.Username result <> k) ->
             row k db' = row k db).
Proof.
  induction results as [|res rest IH]; intros Hnd db Hh; simpl.
  - repeat split; try apply Hh; auto. intros result [].
  - apply List.NoDup_cons_iff in Hnd as [Hres Hnd].
    destruct (handleResult_row conf res db Hh) as (Hh1 & Hc1 & Hu1 & Hr1).
    destruct (IH Hnd _ Hh1) as (Hh2 & Hc2 & Hu2 & Hr2).
    split; [exact Hh2 |]. split; [congruence |]. split; [auto |].
    intros k. destruct (Hr2 k) as [Hin Hout]. split.
    + intros result [<-|Hmem] Hk.
      * rewrite Hout.
        -- rewrite Hr1, <- Hk, String.eqb_refl. reflexivity.
        -- intros result Hmem Heq. apply Hres. apply in_map_iff.
           exists result. split; [congruence | exact Hmem].
      * rewrite (Hin result Hmem Hk), Hc1, Hr1.
        destruct (String.eqb_spec k (checker.Username res)) as [Heq|]; [| reflexivity].
        exfalso. apply Hres. apply in_map_iff.
        exists result. split; [congruence | exact Hmem].
    + intros Hne. rewrite Hout by (intros result Hmem; apply Hne; auto).
      rewrite Hr1. destruct (String.eqb_spec k (checker.Username res)) as [Heq|];
        [| reflexivity].
      exfalso. apply (Hne res); auto.
Qed.

(** One cycle, seen on the row of any user [k]. *)
Lemma Check_row (conf : checker.CheckerConfig) (net : checker.Network)
  (arrival : list checker.CheckResult -> list checker.CheckResult)
  (db : SQLiteRepository) (k : string) :
  healthy db -> unique db -> fair arrival ->
  let db' := snd (checker.Check conf net arrival db) in
  healthy db' /\ unique db' /\ clock db' = clock db
  /\ fst (checker.Check conf net arrival db) = None
  /\ row k db'
     = match row k db with
       | None => None
       | Some m =>
           rowStep (checker.maxFailedChecks conf) (clock db)
             (probeOK conf net (Target m)) (Some m)
       end.
Proof.
  intros Hh Hu Hfair. unfold checker.Check.
  change (@repository.FindAll SQLiteRepository _) with SQLite.FindAll.
  rewrite (FindAll_healthy db Hh).
  destruct (Nat.eqb (length (List.map scan (rows db))) 0) eqn:Hlen; simpl.
  - repeat split; try apply Hh; auto.
    apply Nat.eqb_eq in Hlen. rewrite length_map in Hlen.
    unfold row. destruct (rows db); [reflexivity | discriminate].
  - set (l := List.map (checker.checkSingleProxy conf net) (List.map scan (rows db))).
    assert (List.map checker.Username l = List.map Username (rows db)) as Hnames.
    { unfold l. rewrite !map_map. apply map_ext. intros m.
      apply (checkSingleProxy_result conf net (scan m)). }
    assert (List.NoDup (List.map checker.Username (arrival l))) as Hnd.
    { apply (Permutation_NoDup (l := List.map checker.Username l)).
      - apply Permutation_map. symmetry. apply Hfair.
      - rewrite Hnames. exact Hu. }
    destruct (fold_results_row conf (arrival l) Hnd db Hh) as (Hh' & Hc' & Hu' & Hr').
    split; [exact Hh' |]. split; [auto |]. split; [exact Hc' |].
    split; [reflexivity |].
    destruct (Hr' k) as [Hin Hout].
    destruct (row k db) as [m|] eqn:Hm.
    + apply find_username in Hm as [Hmem Hk].
      destruct (checkSingleProxy_result conf net (scan m)) as [Hn Hs].
      change (Target (scan m)) with (Target m) in Hs.
      rewrite <- Hs. apply Hin.
      * apply (Permutation_in (l := l)); [symmetry; apply Hfair |].
        unfold l. apply in_map, in_map. exact Hmem.
      * rewrite Hn. exact Hk.
    + rewrite Hout; [reflexivity |].
      intros result Hmem Hk. unfold row in Hm. apply find_absent in Hm. apply Hm.
      rewrite <- Hnames. apply in_map_iff. exists result. split; [exact Hk |].
      apply (Permutation_in (l := arrival l)); [apply Hfair | exact Hmem].
Qed.



Lemma failingTicks_fair conf target ticks :
  failingTicks conf target ticks -> fairTicks ticks.
Proof.
  unfold failingTicks, fairTicks. intros Hf.
  eapply Forall_impl; [exact Hf |]. simpl. tauto.
Qed.


End CheckerFacts.

Section CycleFacts.
Import repository SQLite observe.


Lemma fair_inOrder : fair inOrder.
Proof. intros l. reflexivity. Qed.

Lemma failingTicks_unreachable (conf : checker.CheckerConfig) (target : string)
  (n : nat) :
  failingTicks conf target (sample.failing n).
Proof.
  unfold failingTicks, sample.failing. induction n as [|n IH]; simpl; constructor.
  - split; [apply fair_inOrder | reflexivity].
  - exact IH.
Qed.

Lemma healthy_sample : healthy sample.db.
Proof. split; reflexivity. Qed.

Lemma unique_sample : unique sample.db.
Proof.
  unfold unique. simpl. repeat constructor; simpl; intuition discriminate.
Qed.

Lemma checkCycles_repo (conf : checker.CheckerConfig) ticks
  (pr : router.ProxyRouter SQLiteRepository) :
  router.repo (app.checkCycles conf ticks pr)
  = checker.cycles conf ticks (router.repo pr)
  /\ router.cache (app.checkCycles conf ticks pr) = router.cache pr.
Proof.
  revert pr. induction ticks as [|[net arrival] ticks IH]; intros pr; simpl; [auto |].
  destruct (IH (app.checkCycle conf net arrival pr)) as [Hr Hc].
  rewrite Hr, Hc. auto.
Qed.


End CycleFacts.






(** ** The uniqueness constraint is an invariant of the store *)

Section StoreInvariant.
Import repository SQLite observe.

Lemma driver_rows (db : SQLiteRepository) :
  rows (snd (driver db)) = rows db.
Proof.
  unfold driver. destruct (closed db); [reflexivity |].
  destruct (faults db); reflexivity.
Qed.

Lemma existsb_username (u : string) (l : list ProxyModel) :
  existsb (has_username u) l = false -> ~ In u (List.map Username l).
Proof.
  intros He Hin. apply in_map_iff in Hin as (m & Hu & Hin).
  assert (existsb (has_username u) l = true) as Ht.
  { apply existsb_exists. exists m. split; [exact Hin |].
    apply has_username_true. exact Hu. }
  congruence.
Qed.

Lemma NoDup_snoc (u : string) (l : list string) :
  List.NoDup l -> ~ In u l -> List.NoDup (l ++ [u]).
Proof.
  induction l as [|x l IH]; simpl; intros Hnd Hu.
  - repeat constructor. intros [].
  - apply List.NoDup_cons_iff in Hnd as [Hx Hnd].
    apply List.NoDup_cons.
    + rewrite in_app_iff. simpl. intuition congruence.
    + apply IH; [exact Hnd | tauto].
Qed.

(** Whatever the driver answers, no method of the store breaks the
    uniqueness of user names. *)
Lemma methods_keep_unique (db : SQLiteRepository) (u p t : string) :
  unique db ->
  unique (snd (SQLite.Create u p t db))
  /\ unique (snd (SQLite.Update u p t db))
  /\ unique (snd (SQLite.Delete u db))
  /\ unique (snd (SQLite.FindByUsername u db))
  /\ unique (snd (SQLite.FindAll db))
  /\ unique (snd (SQLite.IncrementFailedChecks u db))
  /\ unique (snd (SQLite.ResetFailedChecks u db))
  /\ unique (snd (SQLite.Close db)).
Proof.
  unfold unique. intros Hu.
  pose proof (driver_rows db) as Hd.
  unfold SQLite.Create, SQLite.Update, SQLite.Delete, SQLite.FindByUsername,
    SQLite.FindAll, SQLite.IncrementFailedChecks, SQLite.ResetFailedChecks,
    SQLite.Close.
  destruct (driver db) as [[e|] db']; simpl in Hd; simpl;
    [rewrite Hd; tauto |].
  rewrite <- Hd in Hu. repeat split.
  - destruct (existsb (has_username u) (rows db')) eqn:He; [exact Hu |].
    destruct (existsb (has_target t) (rows db')); [exact Hu |].
    simpl. rewrite map_app. simpl.
    apply NoDup_snoc; [exact Hu | apply existsb_username; exact He].
  - destruct (Nat.eqb (rowsAffected u (rows db')) 0); [exact Hu |].
    destruct (existsb _ (rows db')); [exact Hu |].
    simpl. rewrite usernames_update_where; [exact Hu | reflexivity].
  - destruct (Nat.eqb (rowsAffected u (rows db')) 0); [exact Hu |].
    simpl. apply NoDup_usernames_filter. exact Hu.
  - exact Hu.
  - exact Hu.
  - destruct (Nat.eqb (rowsAffected u (rows db')) 0); [exact Hu |].
    simpl. rewrite usernames_update_where; [exact Hu | reflexivity].
  - destruct (Nat.eqb (rowsAffected u (rows db')) 0); [exact Hu |].
    simpl. rewrite usernames_update_where; [exact Hu | reflexivity].
  - rewrite Hd in Hu. exact Hu.
Qed.

(** A table built by [Create] from an empty database file. *)
Lemma unique_open_empty (s : Z) (now : string) : unique (open [] s now).
Proof. unfold unique. simpl. constructor. Qed.

End StoreInvariant.

(** ** The store, method by method *)

Section StoreMethods.
Import repository SQLite observe.

Lemma find_snoc (f : ProxyModel -> bool) (l : list ProxyModel) (m : ProxyModel) :
  List.find f (l ++ [m])
  = match List.find f l with
    | Some x => Some x
    | None => if f m then Some m else None
    end.
Proof.
  induction l as [|x l IH]; simpl; [reflexivity |].
  destruct (f x); [reflexivity | exact IH].
Qed.


Lemma existsb_false {A : Type} (f : A -> bool) (l : list A) :
  existsb f l = false <-> forall x, In x l -> f x = false.
Proof.
  induction l as [|a l IH]; simpl.
  - split; [intros _ x [] | reflexivity].
  - rewrite orb_false_iff, IH. split.
    + intros [Ha Hl] x [<-|Hx]; auto.
    + intros Hall. split; [apply Hall; auto | intros x Hx; apply Hall; auto].
Qed.

Lemma has_target_false (t : string) (m : ProxyModel) :
  has_target t m = false <-> Target m <> t.
Proof. unfold has_target. apply String.eqb_neq. Qed.

Lemma driver_frame (db : SQLiteRepository) :
  rows (snd (driver db)) = rows db /\ seq (snd (driver db)) = seq db
  /\ clock (snd (driver db)) = clock db
  /\ closed (snd (driver db)) = closed db.
Proof.
  unfold driver. destruct (closed db) eqn:Hc; [auto |].
  destruct (faults db); simpl; auto.
Qed.

End StoreMethods.



Section UpdateDeleteFacts.
Import repository SQLite observe.

Lemma other_target_free (u t : string) (l : list ProxyModel) :
  existsb (fun m => negb (has_username u m) && has_target t m) l = false
  <-> forall m, In m l -> Username m <> u -> Target m <> t.
Proof.
  rewrite existsb_false. split.
  - intros Hall m Hm Hu. specialize (Hall m Hm).
    apply has_username_false in Hu. rewrite Hu in Hall. simpl in Hall.
    apply has_target_false. exact Hall.
  - intros Hall m Hm. destruct (has_username u m) eqn:Hu; [reflexivity |].
    simpl. apply has_target_false. apply Hall; [exact Hm |].
    apply has_username_false. exact Hu.
Qed.

Lemma row_rowsAffected (u : string) (db : SQLiteRepository) :
  Nat.eqb (rowsAffected u (rows db)) 0 = true <-> row u db = None.
Proof. apply rowsAffected_zero. Qed.

End UpdateDeleteFacts.

(** X2: On a store whose statement runs, [Update] succeeds exactly when the
    user name is stored and no other record holds the new target.  It
    then replaces the password and the target of that record and keeps
    its row id, failure counter and creation time; on an unknown user
    name it returns the not-found error; the records of the other users
    are never changed, and after an error the table is the one before
    the call. *)
Theorem Update_replaces_credentials (db : repository.SQLiteRepository)
  (username password target : string) :
  observe.healthy db ->
  let db' := snd (repository.SQLite.Update username password target db) in
  (fst (repository.SQLite.Update username password target db) = None
   <-> observe.row username db <> None
       /\ forall m, In m (repository.rows db) ->
                    repository.Username m <> username ->
                    repository.Target m <> target)
  /\ (observe.row username db = None ->
        repository.SQLite.Update username password target db
        = (Some (errNotFound username), db))
  /\ (forall m,
        fst (repository.SQLite.Update username password target db) = None ->
        observe.row username db = Some m ->
        observe.row username db'
        = Some {| repository.ID := repository.ID m;
                  repository.Username := repository.Username m;
                  repository.Password := password;
                  repository.Target := target;
                  repository.FailedChecks := repository.FailedChecks m;
                  repository.LastCheckAt := repository.LastCheckAt m;
                  repository.CreatedAt := repository.CreatedAt m |})
  /\ (forall k, k <> username -> observe.row k db' = observe.row k db)
  /\ (fst (repository.SQLite.Update username password target db) <> None ->
        db' = db).
Proof.
  intros Hh db'. subst db'. unfold repository.SQLite.Update.
  rewrite (driver_healthy db Hh).
  destruct (Nat.eqb (repository.SQLite.rowsAffected username (repository.rows db)) 0)
    eqn:Hz.
  - apply row_rowsAffected in Hz. simpl.
    split; [split; [discriminate | intros [Hn _]; contradiction] |].
    split; [reflexivity |]. split; [discriminate |]. split; reflexivity.
  - assert (observe.row username db <> None) as Hrow.
    { intros Hn. apply row_rowsAffected in Hn. congruence. }
    destruct (existsb _ (repository.rows db)) eqn:Ht; simpl.
    + split.
      * split; [discriminate |]. intros [_ Hall].
        apply other_target_free in Hall. congruence.
      * split; [intros Hn; contradiction |]. split; [discriminate |].
        split; reflexivity.
    + split.
      * split; [| reflexivity]. intros _. split; [exact Hrow |].
        apply other_target_free. exact Ht.
      * split; [intros Hn; contradiction |]. split; [| split].
        -- intros m _ Hm. unfold observe.row in *. simpl.
           rewrite find_update_where by reflexivity.
           rewrite String.eqb_refl, Hm. reflexivity.
        -- intros k Hk. unfold observe.row. simpl.
           rewrite find_update_where by reflexivity.
           destruct (String.eqb_spec k username); [contradiction | reflexivity].
        -- intros Hn. exfalso. apply Hn. reflexivity.
Qed.

(** The theorem at work: alice gets a new password and target; moving
    her to the target of bob is refused. *)
Lemma Update_replaces_credentials_witness :
  observe.row "alice"
    (snd (repository.SQLite.Update "alice" "new" "192.0.2.9:3128" sample.db))
  = Some {| repository.ID := 1; repository.Username := "alice";
            repository.Password := "new";
            repository.Target := "192.0.2.9:3128";
            repository.FailedChecks := 0;
            repository.LastCheckAt := EmptyString;
            repository.CreatedAt := "2025-01-01 00:00:00" |}
  /\ snd (repository.SQLite.Update "alice" "new" "198.51.100.7:8080" sample.db)
     = sample.db.
Proof.
  split.
  - destruct (Update_replaces_credentials sample.db "alice" "new" "192.0.2.9:3128"
                healthy_sample) as (_ & _ & Hrow & _).
    exact (Hrow sample.alice eq_refl eq_refl).
  - destruct (Update_replaces_credentials sample.db "alice" "new" "198.51.100.7:8080"
                healthy_sample) as (_ & _ & _ & _ & Herr).
    apply Herr. vm_compute. discriminate.
Defined.

(** X3: On a store whose statement runs, [Delete] succeeds exactly when the
    user name is stored; afterwards [FindByUsername] returns nil for
    it, a second [Delete] returns the not-found error and changes
    nothing, and the records of the other users are the ones before. *)
Theorem Delete_then_FindByUsername (db : repository.SQLiteRepository)
  (username : string) :
  observe.healthy db ->
  let db' := snd (repository.SQLite.Delete username db) in
  (fst (repository.SQLite.Delete username db) = None
   <-> observe.row username db <> None)
  /\ (observe.row username db = None ->
        repository.SQLite.Delete username db = (Some (errNotFound username), db))
  /\ repository.SQLite.FindByUsername username db' = (Ok None, db')
  /\ repository.SQLite.Delete username db' = (Some (errNotFound username), db')
  /\ (forall k, k <> username -> observe.row k db' = observe.row k db).
Proof.
  intros Hh db'.
  destruct (Delete_healthy username db Hh) as (Hh' & _ & _ & Hrow).
  fold db' in Hh', Hrow.
  assert (observe.row username db' = None) as Hgone.
  { rewrite Hrow, String.eqb_refl. reflexivity. }
  assert (forall d, observe.healthy d -> observe.row username d = None ->
            repository.SQLite.Delete username d = (Some (errNotFound username), d))
    as Habsent.
  { intros d Hd Hn. unfold repository.SQLite.Delete. rewrite (driver_healthy d Hd).
    apply row_rowsAffected in Hn. rewrite Hn. reflexivity. }
  split; [| split; [| split; [| split]]].
  - unfold repository.SQLite.Delete. rewrite (driver_healthy db Hh).
    destruct (Nat.eqb (repository.SQLite.rowsAffected username (repository.rows db)) 0)
      eqn:Hz; simpl.
    + apply row_rowsAffected in Hz. split; [discriminate | contradiction].
    + split; [| reflexivity]. intros _ Hn. apply row_rowsAffected in Hn. congruence.
  - apply Habsent. exact Hh.
  - rewrite (Find_healthy username db' Hh'), Hgone. reflexivity.
  - apply Habsent; assumption.
  - intros k Hk. rewrite Hrow.
    destruct (String.eqb_spec k username); [contradiction | reflexivity].
Qed.

(** The theorem at work: bob is deleted from the sample store. *)
Lemma Delete_then_FindByUsername_witness :
  fst (repository.SQLite.FindByUsername "bob"
         (snd (repository.SQLite.Delete "bob" sample.db))) = Ok None
  /\ observe.row "alice" (snd (repository.SQLite.Delete "bob" sample.db))
     = Some sample.alice.
Proof.
  destruct (Delete_then_FindByUsername sample.db "bob" healthy_sample)
    as (_ & _ & Hf & _ & Hk).
  split; [exact (f_equal fst Hf) |].
  exact (Hk "alice" ltac:(discriminate)).
Defined.

(** ** The constraints of the table *)

Section ConstraintFacts.
Import repository SQLite observe invariant.

Lemma map_update_where {A : Type} (g : ProxyModel -> A) (u : string)
  (f : ProxyModel -> ProxyModel) (l : list ProxyModel) :
  (forall m, g (f m) = g m) ->
  List.map g (update_where u f l) = List.map g l.
Proof.
  intros Hf. induction l as [|m l IH]; simpl; [reflexivity |].
  rewrite IH. destruct (has_username u m); [rewrite Hf |]; reflexivity.
Qed.

Lemma Forall_update_where (P : ProxyModel -> Prop) (u : string)
  (f : ProxyModel -> ProxyModel) (l : list ProxyModel) :
  (forall m, P m -> P (f m)) -> Forall P l -> Forall P (update_where u f l).
Proof.
  intros Hf. induction 1 as [|m l Hm _ IH]; simpl; constructor; [| exact IH].
  destruct (has_username u m); auto.
Qed.

Lemma NoDup_map_filter {A : Type} (g : ProxyModel -> A) (p : ProxyModel -> bool)
  (l : list ProxyModel) :
  List.NoDup (List.map g l) -> List.NoDup (List.map g (List.filter p l)).
Proof.
  induction l as [|m l IH]; simpl; [auto |].
  intros Hnd. apply List.NoDup_cons_iff in Hnd as [Hm Hnd].
  destruct (p m); simpl; [| auto].
  apply List.NoDup_cons; [| auto].
  intros Hin. apply Hm. apply in_map_iff in Hin as (m' & Heq & Hin).
  apply filter_In in Hin as [Hin _]. apply in_map_iff. eauto.
Qed.

Lemma Forall_filter_rows (P : ProxyModel -> Prop) (p : ProxyModel -> bool)
  (l : list ProxyModel) :
  Forall P l -> Forall P (List.filter p l).
Proof.
  induction 1 as [|m l Hm _ IH]; simpl; [constructor |].
  destruct (p m); [constructor; assumption | exact IH].
Qed.

Lemma update_where_absent (u : string) (f : ProxyModel -> ProxyModel)
  (l : list ProxyModel) :
  ~ In u (List.map Username l) -> update_where u f l = l.
Proof.
  induction l as [|m l IH]; simpl; [reflexivity |].
  intros Hn. destruct (has_username u m) eqn:Hu.
  - apply has_username_true in Hu. exfalso. apply Hn. auto.
  - rewrite IH; [reflexivity | tauto].
Qed.

Lemma NoDup_targets_update (u p t : string) (l : list ProxyModel) :
  List.NoDup (List.map Username l) ->
  List.NoDup (List.map Target l) ->
  (forall m, In m l -> Username m <> u -> Target m <> t) ->
  List.NoDup (List.map Target (update_where u (set_credentials p t) l)).
Proof.
  induction l as [|m l IH]; simpl; intros Hun Htn Hfree; [constructor |].
  apply List.NoDup_cons_iff in Hun as [Hum Hun].
  apply List.NoDup_cons_iff in Htn as [Htm Htn].
  destruct (has_username u m) eqn:Hu.
  - apply has_username_true in Hu. subst u.
    rewrite update_where_absent by exact Hum. simpl.
    apply List.NoDup_cons; [| exact Htn].
    intros Hin. apply in_map_iff in Hin as (x & Hx & Hin).
    apply (Hfree x); [auto | | exact Hx].
    intros Heq. apply Hum. apply in_map_iff. eauto.
  - apply has_username_false in Hu.
    apply List.NoDup_cons; [| apply IH; auto].
    intros Hin. apply in_map_iff in Hin as (x' & Hx' & Hin).
    unfold update_where in Hin. apply in_map_iff in Hin as (x & Hx & Hin).
    destruct (has_username u x); subst x'; simpl in Hx'.
    + apply (Hfree m); auto.
    + apply Htm. apply in_map_iff. eauto.
Qed.

Lemma wellFormed_frame (d d' : SQLiteRepository) :
  rows d' = rows d -> seq d' = seq d -> wellFormed d -> wellFormed d'.
Proof. unfold wellFormed. intros -> ->. tauto. Qed.

Lemma wellFormed_update (u : string) (f : ProxyModel -> ProxyModel)
  (d : SQLiteRepository) :
  (forall m, Username (f m) = Username m) ->
  (forall m, ID (f m) = ID m) ->
  (forall m, Target (f m) = Target m) ->
  wellFormed d -> wellFormed (with_rows (update_where u f (rows d)) (seq d) d).
Proof.
  intros Hu Hi Ht (Hun & Htn & Hin & Hseq). unfold wellFormed. simpl.
  rewrite !map_update_where by assumption.
  repeat split; try assumption.
  apply Forall_update_where; [| exact Hseq]. intros m. rewrite Hi. auto.
Qed.

Lemma NoDup_fresh {A : Type} (x : A) (l : list A) :
  List.NoDup l -> ~ In x l -> List.NoDup (l ++ [x]).
Proof.
  induction l as [|y l IH]; simpl; intros Hnd Hx.
  - repeat constructor. intros [].
  - apply List.NoDup_cons_iff in Hnd as [Hy Hnd].
    apply List.NoDup_cons.
    + rewrite in_app_iff. simpl. intuition congruence.
    + apply IH; [exact Hnd | tauto].
Qed.

Lemma wellFormed_Create (u p t : string) (d : SQLiteRepository) :
  wellFormed d -> wellFormed (snd (SQLite.Create u p t d)).
Proof.
  intros Hwf. unfold SQLite.Create.
  destruct (driver_frame d) as (Hr & Hs & _).
  destruct (driver d) as [[e|] d0]; simpl in Hr, Hs;
    [exact (wellFormed_frame _ _ Hr Hs Hwf) |].
  pose proof (wellFormed_frame _ _ Hr Hs Hwf) as Hwf0.
  destruct (existsb (has_username u) (rows d0)) eqn:Hu; [exact Hwf0 |].
  destruct (existsb (has_target t) (rows d0)) eqn:Ht; [exact Hwf0 |].
  destruct Hwf0 as (Hun & Htn & Hin & Hseq). unfold wellFormed. simpl.
  rewrite !map_app. simpl. repeat split.
  - apply NoDup_fresh; [exact Hun | apply existsb_username; exact Hu].
  - apply NoDup_fresh; [exact Htn |].
    intros Hmem. apply in_map_iff in Hmem as (m & Hm & Hmem).
    apply (proj1 (existsb_false _ _) Ht) in Hmem.
    apply has_target_false in Hmem. contradiction.
  - apply NoDup_fresh; [exact Hin |].
    intros Hmem. apply in_map_iff in Hmem as (m & Hm & Hmem).
    rewrite List.Forall_forall in Hseq. specialize (Hseq m Hmem). lia.
  - apply List.Forall_app. split.
    + eapply List.Forall_impl; [| exact Hseq]. simpl. intros m Hm. lia.
    + repeat constructor. simpl. lia.
Qed.

End ConstraintFacts.

(** X5: Whatever the driver answers, no method of the store breaks the
    constraints of the table: user names, targets and row ids stay
    unique, and row ids stay within the AUTOINCREMENT sequence, so a
    row id is never given twice, not even after a [Delete]. *)
Theorem store_keeps_constraints (db : repository.SQLiteRepository)
  (username password target : string) :
  invariant.wellFormed db ->
  invariant.wellFormed (snd (repository.SQLite.Create username password target db))
  /\ invariant.wellFormed (snd (repository.SQLite.Update username password target db))
  /\ invariant.wellFormed (snd (repository.SQLite.Delete username db))
  /\ invariant.wellFormed (snd (repository.SQLite.FindByUsername username db))
  /\ invariant.wellFormed (snd (repository.SQLite.FindAll db))
  /\ invariant.wellFormed (snd (repository.SQLite.IncrementFailedChecks username db))
  /\ invariant.wellFormed (snd (repository.SQLite.ResetFailedChecks username db))
  /\ invariant.wellFormed (snd (repository.SQLite.Close db)).
Proof.
  intros Hwf. split; [apply wellFormed_Create; exact Hwf |].
  unfold repository.SQLite.Update, repository.SQLite.Delete,
    repository.SQLite.FindByUsername, repository.SQLite.FindAll,
    repository.SQLite.IncrementFailedChecks, repository.SQLite.ResetFailedChecks,
    repository.SQLite.Close.
  destruct (driver_frame db) as (Hr & Hs & _).
  destruct (repository.SQLite.driver db) as [[e|] d0]; simpl in Hr, Hs;
    pose proof (wellFormed_frame _ _ Hr Hs Hwf) as Hwf0; simpl.
  - do 6 (split; [exact Hwf0 |]). exact Hwf.
  - split; [| split; [| split; [| split; [| split; [| split]]]]];
      try exact Hwf0; try exact Hwf.
    + destruct (Nat.eqb _ 0); [exact Hwf0 |].
      destruct (existsb _ (repository.rows d0)) eqn:Ht; [exact Hwf0 |].
      destruct Hwf0 as (Hun & Htn & Hin & Hseq). unfold invariant.wellFormed. simpl.
      rewrite (map_update_where repository.Username) by reflexivity.
      rewrite (map_update_where repository.ID) by reflexivity.
      split; [exact Hun |]. split; [| split; [exact Hin |]].
      * apply NoDup_targets_update; try assumption.
        apply other_target_free. exact Ht.
      * apply Forall_update_where; [| exact Hseq]. auto.
    + destruct (Nat.eqb _ 0); [exact Hwf0 |].
      destruct Hwf0 as (Hun & Htn & Hin & Hseq). unfold invariant.wellFormed. simpl.
      repeat split; try apply NoDup_map_filter; try assumption.
      apply Forall_filter_rows. exact Hseq.
    + destruct (Nat.eqb _ 0); [exact Hwf0 |].
      apply wellFormed_update; auto.
    + destruct (Nat.eqb _ 0); [exact Hwf0 |].
      apply wellFormed_update; auto.
Qed.

Lemma wellFormed_sample : invariant.wellFormed sample.db.
Proof.
  unfold invariant.wellFormed. simpl.
  repeat split; repeat constructor; simpl; try lia; intuition discriminate.
Qed.

(** The theorem at work: bob is deleted, then carol created; her row id
    is 3, not the 2 that bob had. *)
Lemma store_keeps_constraints_witness :
  invariant.wellFormed
    (snd (repository.SQLite.Create "carol" "pw" "192.0.2.1:3128"
            (snd (repository.SQLite.Delete "bob" sample.db))))
  /\ List.map repository.ID
       (repository.rows
          (snd (repository.SQLite.Create "carol" "pw" "192.0.2.1:3128"
                  (snd (repository.SQLite.Delete "bob" sample.db)))))
     = [1%Z; 3%Z].
Proof.
  split; [| reflexivity].
  refine (proj1 (store_keeps_constraints _ "carol" "pw" "192.0.2.1:3128" _)).
  refine (proj1 (proj2 (proj2 (store_keeps_constraints sample.db "bob" "pw"
                                 "192.0.2.1:3128" _)))).
  exact wellFormed_sample.
Defined.

(** X6: A method of the store that returns an error has changed neither a
    row nor the AUTOINCREMENT sequence, whatever the cause: the driver,
    a constraint, or a user name that is not stored.  The two queries
    and [Close] never change them. *)
Theorem store_error_changes_nothing (db : repository.SQLiteRepository)
  (username password target : string) :
  let unchanged db' :=
    repository.rows db' = repository.rows db
    /\ repository.seq db' = repository.seq db in
  (is_ok (fst (repository.SQLite.Create username password target db)) = false ->
     unchanged (snd (repository.SQLite.Create username password target db)))
  /\ (fst (repository.SQLite.Update username password target db) <> None ->
        unchanged (snd (repository.SQLite.Update username password target db)))
  /\ (fst (repository.SQLite.Delete username db) <> None ->
        unchanged (snd (repository.SQLite.Delete username db)))
  /\ (fst (repository.SQLite.IncrementFailedChecks username db) <> None ->
        unchanged (snd (repository.SQLite.IncrementFailedChecks username db)))
  /\ (fst (repository.SQLite.ResetFailedChecks username db) <> None ->
        unchanged (snd (repository.SQLite.ResetFailedChecks username db)))
  /\ unchanged (snd (repository.SQLite.FindByUsername username db))
  /\ unchanged (snd (repository.SQLite.FindAll db))
  /\ unchanged (snd (repository.SQLite.Close db)).
Proof.
  intros unchanged. subst unchanged. cbv beta.
  unfold repository.SQLite.Create, repository.SQLite.Update, repository.SQLite.Delete,
    repository.SQLite.FindByUsername, repository.SQLite.FindAll,
    repository.SQLite.IncrementFailedChecks, repository.SQLite.ResetFailedChecks,
    repository.SQLite.Close.
  destruct (driver_frame db) as (Hr & Hs & _).
  destruct (repository.SQLite.driver db) as [[e|] d0]; simpl in Hr, Hs; simpl.
  - repeat split; auto.
  - split; [| split; [| split; [| split; [| split]]]]; [| | | | | auto].
    + destruct (existsb _ (repository.rows d0)); [auto |].
      destruct (existsb _ (repository.rows d0)); [auto |]. discriminate.
    + destruct (Nat.eqb _ 0); [auto |].
      destruct (existsb _ (repository.rows d0)); [auto |]. simpl. congruence.
    + destruct (Nat.eqb _ 0); [auto |]. simpl. congruence.
    + destruct (Nat.eqb _ 0); [auto |]. simpl. congruence.
    + destruct (Nat.eqb _ 0); [auto |]. simpl. congruence.
Qed.

(** The theorem at work: a second alice is refused by the constraint,
    and an update meets a locked database file. *)
Lemma store_error_changes_nothing_witness :
  repository.rows
    (snd (repository.SQLite.Create "alice" "pw" "192.0.2.1:3128" sample.db))
  = repository.rows sample.db
  /\ repository.rows
       (snd (repository.SQLite.Update "alice" "pw" "192.0.2.1:3128" sample.locked))
     = repository.rows sample.locked.
Proof.
  split.
  - destruct (store_error_changes_nothing sample.db "alice" "pw" "192.0.2.1:3128")
      as (Hc & _).
    exact (proj1 (Hc eq_refl)).
  - destruct (store_error_changes_nothing sample.locked "alice" "pw" "192.0.2.1:3128")
      as (_ & Hu & _).
    refine (proj1 (Hu _)). vm_compute. discriminate.
Defined.

(** ** The routing table and the store *)

Section SyncFacts.
Import repository SQLite router observe invariant.

Lemma find_scan (u : string) (l : list ProxyModel) :
  List.find (has_username u) (List.map scan l)
  = option_map scan (List.find (has_username u) l).
Proof.
  induction l as [|m l IH]; simpl; [reflexivity |].
  change (has_username u (scan m)) with (has_username u m).
  destruct (has_username u m); [reflexivity | exact IH].
Qed.

Lemma lookup_loaded (u : string) (models : list ProxyModel)
  (c : gmap string ProxyConfig) :
  List.NoDup (List.map repository.Username models) ->
  fold_left (fun c model => <[repository.Username model := configOf model]> c)
    models c !! u
  = match List.find (has_username u) models with
    | Some m => Some (configOf m)
    | None => c !! u
    end.
Proof.
  revert c. induction models as [|m l IH]; intros c Hnd; simpl; [reflexivity |].
  apply List.NoDup_cons_iff in Hnd as [Hm Hnd]. rewrite (IH _ Hnd).
  destruct (has_username u m) eqn:Hu.
  - apply has_username_true in Hu. subst u.
    assert (List.find (has_username (repository.Username m)) l = None) as ->
      by (apply find_absent; exact Hm).
    apply lookup_insert_eq.
  - apply has_username_false in Hu.
    destruct (List.find (has_username u) l); [reflexivity |].
    apply lookup_insert_ne. exact Hu.
Qed.

Lemma synced_frame (pr pr' : ProxyRouter SQLiteRepository) :
  rows (repo pr') = rows (repo pr) -> cache pr' = cache pr ->
  synced pr -> synced pr'.
Proof.
  unfold synced, row. intros Hr Hc Hs u. rewrite Hr, Hc. apply Hs.
Qed.

Lemma synced_row (pr : ProxyRouter SQLiteRepository) (u : string) (c : ProxyConfig) :
  synced pr -> cache pr !! u = Some c ->
  exists m, row u (repo pr) = Some m /\ configOf m = c.
Proof.
  intros Hs Hc. rewrite (Hs u) in Hc.
  destruct (row u (repo pr)) as [m|]; [| discriminate].
  injection Hc as Hc. eauto.
Qed.

Lemma synced_absent (pr : ProxyRouter SQLiteRepository) (u : string) :
  synced pr -> cache pr !! u = None -> row u (repo pr) = None.
Proof.
  intros Hs Hc. rewrite (Hs u) in Hc.
  destruct (row u (repo pr)); [discriminate | reflexivity].
Qed.

Lemma synced_AddProxy (pr : ProxyRouter SQLiteRepository) (u p t : string) :
  synced pr -> synced (snd (AddProxy u p t pr)).
Proof.
  intros Hs. unfold AddProxy.
  destruct (cache pr !! u) eqn:Hc; [exact Hs |].
  change (@repository.Create SQLiteRepository _) with SQLite.Create.
  unfold SQLite.Create.
  destruct (driver_frame (repo pr)) as (Hr & _).
  destruct (driver (repo pr)) as [[e|] d0]; simpl in Hr; simpl.
  - apply (synced_frame pr); auto.
  - destruct (existsb (has_username u) (rows d0)) eqn:Hu;
      [apply (synced_frame pr); auto |].
    destruct (existsb (has_target t) (rows d0)); [apply (synced_frame pr); auto |].
    intros k. unfold row. simpl. rewrite find_snoc, Hr.
    fold (row k (repo pr)). unfold has_username at 1. simpl.
    destruct (String.eqb_spec u k) as [<-|Hne].
    + rewrite (synced_absent pr u Hs Hc). rewrite lookup_insert_eq. reflexivity.
    + rewrite lookup_insert_ne by exact Hne. rewrite (Hs k).
      destruct (row k (repo pr)); reflexivity.
Qed.

Lemma synced_UpdateProxy (pr : ProxyRouter SQLiteRepository) (u p t : string) :
  synced pr -> synced (snd (UpdateProxy u p t pr)).
Proof.
  intros Hs. unfold UpdateProxy.
  destruct (cache pr !! u) as [config|] eqn:Hc; [| exact Hs].
  destruct (synced_row pr u config Hs Hc) as (m & Hm & Hcfg).
  change (@repository.Update SQLiteRepository _) with SQLite.Update.
  unfold SQLite.Update.
  destruct (driver_frame (repo pr)) as (Hr & _).
  destruct (driver (repo pr)) as [[e|] d0]; simpl in Hr; simpl.
  - apply (synced_frame pr); auto.
  - destruct (Nat.eqb (rowsAffected u (rows d0)) 0); [apply (synced_frame pr); auto |].
    destruct (existsb _ (rows d0)); [apply (synced_frame pr); auto |].
    intros k. unfold row. simpl. rewrite find_update_where by reflexivity.
    rewrite Hr. fold (row k (repo pr)).
    destruct (String.eqb_spec k u) as [->|Hne].
    + rewrite lookup_insert_eq, Hm. simpl. rewrite <- Hcfg. reflexivity.
    + rewrite lookup_insert_ne by congruence. apply Hs.
Qed.

Lemma synced_RemoveProxy (pr : ProxyRouter SQLiteRepository) (u : string) :
  synced pr -> synced (snd (RemoveProxy u pr)).
Proof.
  intros Hs. unfold RemoveProxy.
  destruct (cache pr !! u) as [config|] eqn:Hc; [| exact Hs].
  change (@repository.Delete SQLiteRepository _) with SQLite.Delete.
  unfold SQLite.Delete.
  destruct (driver_frame (repo pr)) as (Hr & _).
  destruct (driver (repo pr)) as [[e|] d0]; simpl in Hr; simpl.
  - apply (synced_frame pr); auto.
  - destruct (Nat.eqb (rowsAffected u (rows d0)) 0); [apply (synced_frame pr); auto |].
    intros k. unfold row. simpl. rewrite find_delete, Hr. fold (row k (repo pr)).
    destruct (String.eqb_spec k u) as [->|Hne].
    + rewrite lookup_delete_eq. reflexivity.
    + rewrite lookup_delete_ne by congruence. apply Hs.
Qed.

End SyncFacts.

Lemma NewProxyRouter_loaded (db : repository.SQLiteRepository) :
  observe.healthy db ->
  router.NewProxyRouter db
  = {| router.repo := db;
       router.cache :=
         fold_left
           (fun c model =>
              <[repository.Username model := router.configOf model]> c)
           (List.map repository.SQLite.scan (repository.rows db)) ∅ |}.
Proof.
  intros Hh. unfold router.NewProxyRouter, router.loadCache. simpl.
  change (@repository.FindAll repository.SQLiteRepository _)
    with repository.SQLite.FindAll.
  rewrite (FindAll_healthy db Hh). reflexivity.
Qed.

Lemma NewProxyRouter_synced (db : repository.SQLiteRepository) :
  observe.healthy db -> observe.unique db ->
  invariant.synced (router.NewProxyRouter db).
Proof.
  intros Hh Hu. rewrite (NewProxyRouter_loaded db Hh). intros u. simpl.
  rewrite lookup_loaded.
  - rewrite find_scan. unfold observe.row.
    destruct (List.find _ (repository.rows db)); simpl; [reflexivity |].
    apply lookup_empty.
  - rewrite map_map. exact Hu.
Qed.

(** X7: When the load succeeds, [NewProxyRouter] builds the routing table
    as the projection of the store: under every stored user name the
    row id, user name, password and target of its row, and nothing
    under any other name; so [GetProxy] finds exactly the stored pairs
    of user name and password. *)
Theorem NewProxyRouter_mirrors_store (db : repository.SQLiteRepository) :
  observe.healthy db -> observe.unique db ->
  router.repo (router.NewProxyRouter db) = db
  /\ invariant.synced (router.NewProxyRouter db)
  /\ (forall username password,
        snd (router.GetProxy username password (router.NewProxyRouter db)) = true
        <-> exists m, observe.row username db = Some m
                      /\ repository.Password m = password).
Proof.
  intros Hh Hu.
  pose proof (NewProxyRouter_loaded db Hh) as Hnew.
  pose proof (NewProxyRouter_synced db Hh Hu) as Hs.
  split; [rewrite Hnew; reflexivity |]. split; [exact Hs |].
  intros username password. unfold router.GetProxy. rewrite (Hs username).
  assert (router.repo (router.NewProxyRouter db) = db) as -> by (rewrite Hnew; reflexivity).
  destruct (observe.row username db) as [m|]; simpl.
  - destruct (String.eqb_spec (repository.Password m) password) as [Hp|Hp]; simpl.
    + split; [eauto | reflexivity].
    + split; [discriminate |]. intros (m' & [= <-] & Hm'). contradiction.
  - split; [discriminate |]. intros (m' & Hm' & _). discriminate.
Qed.

(** The theorem at work on the sample store. *)
Lemma NewProxyRouter_mirrors_store_witness :
  router.cache (router.NewProxyRouter sample.db) !! "bob"
  = Some (router.configOf sample.bob)
  /\ snd (router.GetProxy "bob" "hunter2" (router.NewProxyRouter sample.db)) = true.
Proof.
  destruct (NewProxyRouter_mirrors_store sample.db healthy_sample unique_sample)
    as (_ & Hs & Hget).
  split; [exact (Hs "bob") |].
  apply Hget. exists sample.bob. split; reflexivity.
Defined.

(** X8: [AddProxy], [UpdateProxy] and [RemoveProxy] keep the routing table
    the projection of the store, whether the store call succeeds, is
    refused by a constraint, or fails in the driver. *)
Theorem router_mutations_keep_sync
  (pr : router.ProxyRouter repository.SQLiteRepository)
  (username password target : string) :
  invariant.synced pr ->
  invariant.synced (snd (router.AddProxy username password target pr))
  /\ invariant.synced (snd (router.UpdateProxy username password target pr))
  /\ invariant.synced (snd (router.RemoveProxy username pr)).
Proof.
  intros Hs. split; [| split].
  - apply synced_AddProxy. exact Hs.
  - apply synced_UpdateProxy. exact Hs.
  - apply synced_RemoveProxy. exact Hs.
Qed.

Lemma synced_sample : invariant.synced (router.NewProxyRouter sample.db).
Proof. exact (NewProxyRouter_synced sample.db healthy_sample unique_sample). Qed.

(** The theorem at work: carol is added, alice updated, bob removed. *)
Lemma router_mutations_keep_sync_witness :
  invariant.synced
    (snd (router.RemoveProxy "bob"
            (snd (router.UpdateProxy "alice" "new" "192.0.2.9:3128"
                    (snd (router.AddProxy "carol" "pw" "192.0.2.1:3128"
                            (router.NewProxyRouter sample.db))))))).
Proof.
  refine (proj2 (proj2 (router_mutations_keep_sync _ "bob" "pw" "t" _))).
  refine (proj1 (proj2 (router_mutations_keep_sync _ "alice" "new"
                          "192.0.2.9:3128" _))).
  refine (proj1 (router_mutations_keep_sync _ "carol" "pw" "192.0.2.1:3128" _)).
  exact synced_sample.
Defined.

(** ** Mutation followed by lookup *)

Section RoundTripFacts.
Import repository router.
Context {R : Type} `{IProxyRepository R}.

Lemma GetProxy_cache (pr pr' : ProxyRouter R) (k p : string) :
  cache pr' !! k = cache pr !! k -> GetProxy k p pr' = GetProxy k p pr.
Proof. unfold GetProxy. intros ->. reflexivity. Qed.

Lemma GetProxy_entry (pr : ProxyRouter R) (k : string) (c : ProxyConfig) :
  cache pr !! k = Some c ->
  GetProxy k (Password c) pr = (Some c, true)
  /\ forall p, p <> Password c -> GetProxy k p pr = (None, false).
Proof.
  intros Hc. unfold GetProxy. rewrite Hc. split.
  - rewrite String.eqb_refl. reflexivity.
  - intros p Hp. destruct (String.eqb_spec (Password c) p); [congruence | reflexivity].
Qed.

Lemma RemoveProxy_cache (pr : ProxyRouter R) (u : string) :
  cache (snd (RemoveProxy u pr))
  = match fst (RemoveProxy u pr) with
    | None => delete u (cache pr)
    | Some _ => cache pr
    end.
Proof.
  unfold RemoveProxy. destruct (cache pr !! u); [| reflexivity].
  destruct (Delete u (repo pr)) as [[e|] r']; reflexivity.
Qed.

Lemma UpdateProxy_cache (pr : ProxyRouter R) (u p t : string) :
  match fst (UpdateProxy u p t pr) with
  | None =>
      exists config,
        cache pr !! u = Some config
        /\ cache (snd (UpdateProxy u p t pr))
           = <[u := {| ID := ID config; Username := Username config;
                       Password := p; Target := t |}]> (cache pr)
  | Some _ => cache (snd (UpdateProxy u p t pr)) = cache pr
  end.
Proof.
  unfold UpdateProxy. destruct (cache pr !! u) as [config|]; [| reflexivity].
  destruct (Update u p t (repo pr)) as [[e|] r']; simpl; eauto.
Qed.

End RoundTripFacts.

(** X11: After a successful [RemoveProxy] the user name is not found under
    any password, and a second [RemoveProxy] returns the not-found
    error; whether it succeeds or not, [RemoveProxy] never changes what
    [GetProxy] answers for another user name. *)
Theorem RemoveProxy_then_GetProxy {R : Type} `{repository.IProxyRepository R}
  (pr : router.ProxyRouter R) (username : string) :
  let pr' := snd (router.RemoveProxy username pr) in
  (fst (router.RemoveProxy username pr) = None ->
     (forall password, router.GetProxy username password pr' = (None, false))
     /\ router.RemoveProxy username pr' = (Some (errNotFound username), pr'))
  /\ (forall k password, k <> username ->
        router.GetProxy k password pr' = router.GetProxy k password pr).
Proof.
  intros pr'. pose proof (RemoveProxy_cache pr username) as Hc. fold pr' in Hc.
  split.
  - intros Hok. rewrite Hok in Hc.
    assert (router.cache pr' !! username = None) as Hgone
      by (rewrite Hc; apply lookup_delete_eq).
    split.
    + intros password. unfold router.GetProxy. rewrite Hgone. reflexivity.
    + apply RemoveProxy_absent. exact Hgone.
  - intros k password Hk. apply GetProxy_cache. rewrite Hc.
    destruct (fst (router.RemoveProxy username pr)); [reflexivity |].
    apply lookup_delete_ne. congruence.
Qed.

(** The theorem at work: bob is removed from the sample router. *)
Lemma RemoveProxy_then_GetProxy_witness :
  router.GetProxy "bob" "hunter2"
    (snd (router.RemoveProxy "bob" (router.NewProxyRouter sample.db)))
  = (None, false)
  /\ router.GetProxy "alice" "secret"
       (snd (router.RemoveProxy "bob" (router.NewProxyRouter sample.db)))
     = router.GetProxy "alice" "secret" (router.NewProxyRouter sample.db).
Proof.
  destruct (RemoveProxy_then_GetProxy (router.NewProxyRouter sample.db) "bob")
    as [Hgone Hframe].
  split.
  - exact (proj1 (Hgone eq_refl) "hunter2").
  - exact (Hframe "alice" "secret" ltac:(discriminate)).
Defined.

(** X10: After a successful [UpdateProxy] the user name is found under the
    new password only, with the new target and the row id it had;
    whether it succeeds or not, [UpdateProxy] never changes what
    [GetProxy] answers for another user name, and after an error it
    changes no answer at all. *)
Theorem UpdateProxy_then_GetProxy {R : Type} `{repository.IProxyRepository R}
  (pr : router.ProxyRouter R) (username password target : string) :
  let pr' := snd (router.UpdateProxy username password target pr) in
  (fst (router.UpdateProxy username password target pr) = None ->
     exists config,
       router.cache pr !! username = Some config
       /\ router.GetProxy username password pr'
          = (Some {| router.ID := router.ID config;
                     router.Username := router.Username config;
                     router.Password := password;
                     router.Target := target |}, true)
       /\ forall other, other <> password ->
                        router.GetProxy username other pr' = (None, false))
  /\ (forall k p, k <> username ->
        router.GetProxy k p pr' = router.GetProxy k p pr)
  /\ (fst (router.UpdateProxy username password target pr) <> None ->
        forall k p, router.GetProxy k p pr' = router.GetProxy k p pr).
Proof.
  intros pr'. pose proof (UpdateProxy_cache pr username password target) as Hc.
  fold pr' in Hc. split; [| split].
  - intros Hok. rewrite Hok in Hc. destruct Hc as (config & Hcfg & Hc).
    exists config. split; [exact Hcfg |].
    assert (router.cache pr' !! username
            = Some {| router.ID := router.ID config;
                      router.Username := router.Username config;
                      router.Password := password;
                      router.Target := target |}) as Hentry
      by (rewrite Hc; apply lookup_insert_eq).
    destruct (GetProxy_entry pr' username _ Hentry) as [Hfound Hother].
    split; [exact Hfound |]. intros other Hne. apply Hother. simpl. exact Hne.
  - intros k p Hk. apply GetProxy_cache.
    destruct (fst (router.UpdateProxy username password target pr)).
    + rewrite Hc. reflexivity.
    + destruct Hc as (config & _ & ->). apply lookup_insert_ne. congruence.
  - intros Herr k p. apply GetProxy_cache.
    destruct (fst (router.UpdateProxy username password target pr));
      [rewrite Hc; reflexivity | contradiction].
Qed.

(** The theorem at work: alice gets a new password and target. *)
Lemma UpdateProxy_then_GetProxy_witness :
  let pr' := snd (router.UpdateProxy "alice" "new" "192.0.2.9:3128"
                    (router.NewProxyRouter sample.db)) in
  router.GetProxy "alice" "new" pr'
  = (Some {| router.ID := 1; router.Username := "alice";
             router.Password := "new"; router.Target := "192.0.2.9:3128" |}, true)
  /\ router.GetProxy "alice" "secret" pr' = (None, false).
Proof.
  intros pr'.
  destruct (UpdateProxy_then_GetProxy (router.NewProxyRouter sample.db)
              "alice" "new" "192.0.2.9:3128") as [Hok _].
  destruct (Hok eq_refl) as (config & Hcfg & Hfound & Hother).
  assert (Some config = Some (router.configOf sample.alice)) as [= ->]
    by (rewrite <- Hcfg; reflexivity).
  split; [exact Hfound |].
  apply Hother. discriminate.
Defined.

Lemma AddProxy_cache (pr : router.ProxyRouter repository.SQLiteRepository)
  (u p t : string) :
  match fst (router.AddProxy u p t pr) with
  | None =>
      exists id,
        router.cache (snd (router.AddProxy u p t pr))
        = <[u := {| router.ID := id; router.Username := u;
                    router.Password := p; router.Target := t |}]>
            (router.cache pr)
  | Some _ => router.cache (snd (router.AddProxy u p t pr)) = router.cache pr
  end.
Proof.
  unfold router.AddProxy.
  destruct (router.cache pr !! u) as [c|] eqn:Hc; [reflexivity |].
  change (@repository.Create repository.SQLiteRepository _)
    with repository.SQLite.Create.
  unfold repository.SQLite.Create.
  destruct (repository.SQLite.driver (router.repo pr)) as [[e|] d0]; simpl;
    [reflexivity |].
  destruct (existsb _ (repository.rows d0)); simpl; [reflexivity |].
  destruct (existsb _ (repository.rows d0)); simpl; [reflexivity |].
  exists (repository.seq d0 + 1)%Z. reflexivity.
Qed.

(** X9: On the SQLite store, after a successful [AddProxy] the user name is
    found under the given password only, with the given target; a
    second [AddProxy] of the name returns the already-exists error and
    changes nothing; [AddProxy] never changes what [GetProxy] answers
    for another user name. *)
Theorem AddProxy_then_GetProxy
  (pr : router.ProxyRouter repository.SQLiteRepository)
  (username password target : string) :
  let pr' := snd (router.AddProxy username password target pr) in
  (fst (router.AddProxy username password target pr) = None ->
     (exists id,
        router.GetProxy username password pr'
        = (Some {| router.ID := id; router.Username := username;
                   router.Password := password; router.Target := target |}, true))
     /\ (forall other, other <> password ->
           router.GetProxy username other pr' = (None, false))
     /\ (forall password' target',
           router.AddProxy username password' target' pr'
           = (Some (errAlreadyExists username), pr')))
  /\ (forall k p, k <> username ->
        router.GetProxy k p pr' = router.GetProxy k p pr).
Proof.
  intros pr'. pose proof (AddProxy_cache pr username password target) as Hc.
  fold pr' in Hc. split.
  - intros Hok. rewrite Hok in Hc. destruct Hc as (id & Hc).
    assert (router.cache pr' !! username
            = Some {| router.ID := id; router.Username := username;
                      router.Password := password; router.Target := target |})
      as Hentry by (rewrite Hc; apply lookup_insert_eq).
    destruct (GetProxy_entry pr' username _ Hentry) as [Hfound Hother].
    split; [exists id; exact Hfound |]. split; [exact Hother |].
    intros password' target'. apply AddProxy_present. rewrite Hentry. eauto.
  - intros k p Hk. apply GetProxy_cache.
    destruct (fst (router.AddProxy username password target pr)).
    + rewrite Hc. reflexivity.
    + destruct Hc as (id & ->). apply lookup_insert_ne. congruence.
Qed.

(** The theorem at work: carol is added to the sample router. *)
Lemma AddProxy_then_GetProxy_witness :
  let pr' := snd (router.AddProxy "carol" "pw" "192.0.2.1:3128"
                    (router.NewProxyRouter sample.db)) in
  (exists id,
     router.GetProxy "carol" "pw" pr'
     = (Some {| router.ID := id; router.Username := "carol";
                router.Password := "pw"; router.Target := "192.0.2.1:3128" |}, true))
  /\ router.AddProxy "carol" "other" "192.0.2.2:3128" pr'
     = (Some (errAlreadyExists "carol"), pr').
Proof.
  intros pr'.
  destruct (AddProxy_then_GetProxy (router.NewProxyRouter sample.db)
              "carol" "pw" "192.0.2.1:3128") as [Hok _].
  destruct (Hok eq_refl) as (Hfound & _ & Hagain).
  exact (conj Hfound (Hagain "other" "192.0.2.2:3128")).
Defined.

(** X12: On a routing table that is the projection of the store,
    [GetAllProxies] returns the stored records, each of them once, in
    some order, and [ListProxies] maps every stored user name, and no
    other, to its stored target. *)
Theorem listings_show_the_store
  (pr : router.ProxyRouter repository.SQLiteRepository) :
  invariant.synced pr -> observe.unique (router.repo pr) ->
  router.GetAllProxies pr
  ≡ₚ List.map router.configOf (repository.rows (router.repo pr))
  /\ (forall username target,
        router.ListProxies pr !! username = Some target
        <-> exists m, observe.row username (router.repo pr) = Some m
                      /\ repository.Target m = target).
Proof.
  intros Hs Hu. split.
  - unfold router.GetAllProxies. apply NoDup_Permutation.
    + apply NoDup_fmap_2_strong; [| apply NoDup_map_to_list].
      intros [k1 c1] [k2 c2] H1 H2 Heq. simpl in Heq. subst c2.
      apply elem_of_map_to_list in H1, H2.
      destruct (synced_row pr k1 c1 Hs H1) as (m1 & Hm1 & Hc1).
      destruct (synced_row pr k2 c1 Hs H2) as (m2 & Hm2 & Hc2).
      apply find_username in Hm1 as [_ Hk1]. apply find_username in Hm2 as [_ Hk2].
      assert (k1 = k2) as ->.
      { rewrite <- Hk1, <- Hk2.
        change (router.Username (router.configOf m1)
                = router.Username (router.configOf m2)).
        rewrite Hc1, Hc2. reflexivity. }
      reflexivity.
    + apply NoDup_ListNoDup.
      apply (NoDup_map_inv router.Username).
      rewrite map_map. exact Hu.
    + intros c. rewrite list_elem_of_fmap, list_elem_of_In, in_map_iff. split.
      * intros ([k c'] & -> & Hin). simpl. apply elem_of_map_to_list in Hin.
        destruct (synced_row pr k c' Hs Hin) as (m & Hm & Hc).
        apply find_username in Hm as [Hm _]. eauto.
      * intros (m & <- & Hin). exists (repository.Username m, router.configOf m).
        split; [reflexivity |]. apply elem_of_map_to_list.
        rewrite (Hs (repository.Username m)). unfold observe.row.
        rewrite (find_unique _ _ m Hu Hin eq_refl). reflexivity.
  - intros username target. unfold router.ListProxies.
    rewrite lookup_fmap, (Hs username).
    destruct (observe.row username (router.repo pr)) as [m|]; simpl.
    + split; [intros [= <-]; eauto | intros (m' & [= <-] & <-); reflexivity].
    + split; [discriminate | intros (m' & Hm' & _); discriminate].
Qed.

(** The theorem at work on the sample router. *)
Lemma listings_show_the_store_witness :
  router.GetAllProxies (router.NewProxyRouter sample.db)
  ≡ₚ [router.configOf sample.alice; router.configOf sample.bob]
  /\ router.ListProxies (router.NewProxyRouter sample.db) !! "bob"
     = Some "198.51.100.7:8080".
Proof.
  destruct (listings_show_the_store (router.NewProxyRouter sample.db)
              synced_sample unique_sample) as [Hall Hlist].
  split; [exact Hall |].
  apply Hlist. exists sample.bob. split; reflexivity.
Defined.

(** ** More on the health checker *)

(** X13: A probe counts as a success exactly when the request through the
    target, to the configured check URL or to [http://www.google.com]
    when none is configured, is answered with a status from 200 to
    399; a failed TCP connect, a failed request and every other status
    are failures.  The result carries the user name of the probed
    record, and an error exactly when it is a failure. *)
Theorem checkSingleProxy_classifies (conf : checker.CheckerConfig)
  (net : checker.Network) (proxy : repository.ProxyModel) :
  let result := checker.checkSingleProxy conf net proxy in
  let testURL :=
    if String.eqb (checker.CheckURL conf) EmptyString then "http://www.google.com"
    else checker.CheckURL conf in
  checker.Username result = repository.Username proxy
  /\ (checker.Success result = true
      <-> exists code,
            net (repository.Target proxy) testURL = checker.Responded code
            /\ (200 <= code < 400)%Z)
  /\ (checker.Success result = true <-> checker.Error result = None).
Proof.
  intros result testURL. subst result testURL. unfold checker.checkSingleProxy.
  destruct (net (repository.Target proxy) _) as [| | | |code] eqn:Hnet; simpl.
  - split; [reflexivity |].
    split; (split; [discriminate |]); [intros (c & [=] & _) | discriminate].
  - split; [reflexivity |].
    split; (split; [discriminate |]); [intros (c & [=] & _) | discriminate].
  - split; [reflexivity |].
    split; (split; [discriminate |]); [intros (c & [=] & _) | discriminate].
  - split; [reflexivity |].
    split; (split; [discriminate |]); [intros (c & [=] & _) | discriminate].
  - destruct ((200 <=? code)%Z && (code <? 400)%Z) eqn:Hrange; simpl.
    + apply andb_true_iff in Hrange as [Hlo Hhi].
      apply Z.leb_le in Hlo. apply Z.ltb_lt in Hhi.
      split; [reflexivity |]. split; [| split; reflexivity].
      split; [| reflexivity]. intros _. exists code. split; [reflexivity | lia].
    + split; [reflexivity |]. split; [| split; discriminate].
      split; [discriminate |]. intros (c & [= <-] & Hc).
      apply andb_false_iff in Hrange as [Hlo|Hhi].
      * apply Z.leb_gt in Hlo. lia.
      * apply Z.ltb_ge in Hhi. lia.
Qed.

Section IdentityFacts.
Import repository SQLite observe invariant.

Lemma sameRecord_refl (m : ProxyModel) : sameRecord m m.
Proof. unfold sameRecord. auto. Qed.

Lemma sameRecord_trans (a b c : ProxyModel) :
  sameRecord a b -> sameRecord b c -> sameRecord a c.
Proof. unfold sameRecord. intuition congruence. Qed.

Lemma rowStep_identity (max : Z) (now : string) (success : bool) (m m' : ProxyModel) :
  rowStep max now success (Some m) = Some m' -> sameRecord m m'.
Proof.
  simpl. destruct success; [intros [= <-]; unfold sameRecord; auto |].
  destruct (FailedChecks m + 1 >=? max)%Z; [discriminate |].
  intros [= <-]. unfold sameRecord. auto.
Qed.

Lemma cycles_identity (conf : checker.CheckerConfig) (k : string) ticks :
  fairTicks ticks ->
  forall db m',
    healthy db -> unique db ->
    row k (checker.cycles conf ticks db) = Some m' ->
    exists m, row k db = Some m /\ sameRecord m m'.
Proof.
  induction 1 as [|[net arrival] ticks Hfair _ IH]; intros db m' Hh Hu Hm'; simpl in Hm'.
  - exists m'. split; [exact Hm' | apply sameRecord_refl].
  - destruct (Check_row conf net arrival db k Hh Hu Hfair) as (Hh' & Hu' & _ & _ & Hr).
    destruct (IH _ _ Hh' Hu' Hm') as (m1 & Hm1 & Hsame).
    rewrite Hm1 in Hr. destruct (row k db) as [m|]; [| discriminate].
    exists m. split; [reflexivity |].
    apply (sameRecord_trans m m1 m'); [| exact Hsame].
    apply (rowStep_identity _ _ _ _ _ (eq_sym Hr)).
Qed.

End IdentityFacts.

(** X14: The checker never creates a record and never changes one's
    identity: on a store whose statements run, whatever the probes
    answer, a record the store holds after any number of cycles was
    there before them with the same row id, user name, password, target
    and creation time. *)
Theorem checker_keeps_identity (conf : checker.CheckerConfig)
  (ticks : list (checker.Network
                 * (list checker.CheckResult -> list checker.CheckResult)))
  (db : repository.SQLiteRepository) (username : string)
  (m' : repository.ProxyModel) :
  observe.healthy db -> observe.unique db -> observe.fairTicks ticks ->
  observe.row username (checker.cycles conf ticks db) = Some m' ->
  exists m, observe.row username db = Some m /\ invariant.sameRecord m m'.
Proof.
  intros Hh Hu Hfair Hm'. exact (cycles_identity conf username ticks Hfair db m' Hh Hu Hm').
Qed.

(** The theorem at work: alice after four failed cycles. *)
Lemma checker_keeps_identity_witness :
  exists m, observe.row "alice" sample.db = Some m
            /\ invariant.sameRecord m
                 (repository.SQLite.set_failed 4 "2025-02-01 00:00:00" sample.alice).
Proof.
  apply (checker_keeps_identity sample.conf (sample.failing 4) sample.db "alice" _
           healthy_sample unique_sample).
  - apply (failingTicks_fair sample.conf EmptyString). apply failingTicks_unreachable.
  - reflexivity.
Defined.




(** ** More on the dispatcher *)

Section GateFacts.
Import router http server.

Lemma handleConnect_dialed (up : Upstream) (w0 : ResponseWriter) (r : Request)
  (config : ProxyConfig) :
  dialed (handleConnect up w0 r config) = [Target config]
  /\ panicked (handleConnect up w0 r config) = false.
Proof.
  unfold handleConnect.
  destruct (dial up (Target config)); [auto |].
  destruct (write up); [auto |].
  destruct (reply up) as [resp|]; [| auto].
  destruct (negb _); [auto |].
  destruct (hijack up); auto.
Qed.

Lemma handleHTTPRequest_dialed (up : Upstream) (w0 : ResponseWriter) (r : Request)
  (config : ProxyConfig) :
  dialed (handleHTTPRequest up w0 r config) = [Target config]
  /\ panicked (handleHTTPRequest up w0 r config) = false.
Proof.
  unfold handleHTTPRequest.
  destruct (dial up (Target config)); [auto |].
  destruct (write up); [auto |].
  destruct (reply up) as [resp|]; auto.
Qed.

Lemma Error_status (w0 : ResponseWriter) (msg : string) (code : Z) :
  wroteHeader w0 = None -> wroteHeader (Error w0 msg code) = Some code.
Proof. intros Hw. unfold Error, Write, WriteHeader, setHeader. simpl. rewrite Hw. reflexivity. Qed.



Lemma handleHTTP_cases {R : Type} `{repository.IProxyRepository R}
  (pr : ProxyRouter R) (up : Upstream) (r : Request) :
  (handleHTTP pr up newResponseWriter r = unauthorized "Proxy Authentication Required"
   \/ handleHTTP pr up newResponseWriter r = unauthorized "Invalid credentials")
  \/ exists username password config,
       parseProxyAuth (Get "Proxy-Authorization" (ReqHeader r))
       = (username, password, true)
       /\ cache pr !! username = Some config
       /\ Password config = password
       /\ handleHTTP pr up newResponseWriter r
          = if String.eqb (Method r) MethodConnect
            then handleConnect up newResponseWriter r config
            else handleHTTPRequest up newResponseWriter r config.
Proof.
  destruct (parseProxyAuth (Get "Proxy-Authorization" (ReqHeader r)))
    as [[username password] ok] eqn:Hparse.
  destruct ok.
  - destruct (GetProxy_total pr username password) as [Hnone|[config Hsome]].
    + left. right. apply (handleHTTP_lookup_failed pr up r username password Hparse).
      rewrite Hnone. reflexivity.
    + right. exists username, password, config.
      pose proof (proj1 (GetProxy_found pr username password config) Hsome) as [Hc Hp].
      split; [reflexivity |]. split; [exact Hc |]. split; [exact Hp |].
      exact (handleHTTP_authorized pr up r username password config Hparse Hsome).
  - left. left. apply handleHTTP_no_credentials. rewrite Hparse. reflexivity.
Qed.

End GateFacts.

(** X19: The authentication gate: [handleHTTP] dials nothing and writes
    nothing upstream unless the request carries Basic credentials that
    match a record of the routing table, and then the only address it
    dials is the target of that record; it answers every other request
    407, and it never dereferences a nil record. *)
Theorem only_authenticated_requests_reach_upstream
  {R : Type} `{repository.IProxyRepository R}
  (pr : router.ProxyRouter R) (up : server.Upstream) (r : http.Request) :
  let ex := server.handleHTTP pr up http.newResponseWriter r in
  server.panicked ex = false
  /\ ((server.dialed ex = [] /\ server.sent ex = [] /\ server.hijacked ex = false
       /\ http.wroteHeader (server.w ex) = Some 407%Z)
      \/ exists username password config,
           server.parseProxyAuth (http.Get "Proxy-Authorization" (http.ReqHeader r))
           = (username, password, true)
           /\ router.cache pr !! username = Some config
           /\ router.Password config = password
           /\ server.dialed ex = [router.Target config]).
Proof.
  intros ex. subst ex.
  destruct (handleHTTP_cases pr up r) as [[-> | ->]|(u & p & config & Hp & Hc & Hpw & ->)].
  - split; [reflexivity |]. left. repeat split; reflexivity.
  - split; [reflexivity |]. left. repeat split; reflexivity.
  - destruct (handleConnect_dialed up http.newResponseWriter r config) as [Hd1 Hn1].
    destruct (handleHTTPRequest_dialed up http.newResponseWriter r config) as [Hd2 Hn2].
    destruct (String.eqb (http.Method r) http.MethodConnect).
    + split; [exact Hn1 |]. right. exists u, p, config. auto.
    + split; [exact Hn2 |]. right. exists u, p, config. auto.
Qed.


(** X21: The client's proxy credentials never go upstream: whatever
    [handleHTTP] writes on the upstream connection is either the
    CONNECT request built from the request's host alone, or the inbound
    request without its [Proxy-Authorization] and [Proxy-Connection]
    headers. *)
Theorem credentials_never_forwarded
  {R : Type} `{repository.IProxyRepository R}
  (pr : router.ProxyRouter R) (up : server.Upstream) (r : http.Request) :
  forall s, In s (server.sent (server.handleHTTP pr up http.newResponseWriter r)) ->
    s = server.SentBytes
          ("CONNECT " ++ http.Host r ++ " HTTP/1.1" ++ http.CRLF
           ++ "Host: " ++ http.Host r ++ http.CRLF ++ http.CRLF)
    \/ (s = server.SentRequest (server.stripProxyHeaders r)
        /\ http.ReqHeader (server.stripProxyHeaders r) !! "Proxy-Authorization" = None
        /\ http.ReqHeader (server.stripProxyHeaders r) !! "Proxy-Connection" = None).
Proof.
  intros s.
  destruct (handleHTTP_cases pr up r) as [[-> | ->]|(u & p & config & _ & _ & _ & ->)];
    [intros [] | intros [] |].
  destruct (String.eqb (http.Method r) http.MethodConnect).
  - unfold server.handleConnect.
    destruct (server.dial up (router.Target config)); [intros [] |].
    destruct (server.write up); [intros [] |].
    destruct (server.reply up) as [resp|]; [| intros [<-|[]]; left; reflexivity].
    destruct (negb _); [intros [<-|[]]; left; reflexivity |].
    destruct (server.hijack up); intros [<-|[]]; left; reflexivity.
  - unfold server.handleHTTPRequest.
    assert (http.ReqHeader (server.stripProxyHeaders r) !! "Proxy-Authorization" = None
            /\ http.ReqHeader (server.stripProxyHeaders r) !! "Proxy-Connection" = None)
      as Hstrip.
    { unfold server.stripProxyHeaders, http.Del. simpl. split.
      - rewrite lookup_delete_ne by discriminate. apply lookup_delete_eq.
      - apply lookup_delete_eq. }
    destruct (server.dial up (router.Target config)); [intros [] |].
    destruct (server.write up); [intros [] |].
    destruct (server.reply up) as [resp|]; intros [<-|[]]; right; auto.
Qed.

(** The theorem at work: a CONNECT and a GET with alice's credentials. *)
Lemma credentials_never_forwarded_witness :
  server.sent
    (server.handleHTTP (router.NewProxyRouter sample.db)
       (sample.upstream 200 "200 OK" server.Hijacked) http.newResponseWriter
       (sample.request "CONNECT" sample.aliceAuth))
  = [server.SentBytes
       ("CONNECT example.org:443 HTTP/1.1" ++ http.CRLF
        ++ "Host: example.org:443" ++ http.CRLF ++ http.CRLF)]
  /\ http.ReqHeader (server.stripProxyHeaders (sample.request "GET" sample.aliceAuth))
     !! "Proxy-Authorization" = None.
Proof.
  split; [reflexivity |].
  destruct (credentials_never_forwarded (router.NewProxyRouter sample.db)
              (sample.upstream 200 "200 OK" server.Hijacked)
              (sample.request "GET" sample.aliceAuth)
              (server.SentRequest
                 (server.stripProxyHeaders (sample.request "GET" sample.aliceAuth))))
    as [Hbytes|(_ & Hauth & _)].
  - left. reflexivity.
  - discriminate Hbytes.
  - exact Hauth.
Defined.

(** ** The generated credentials of the import command *)

Section RandomStringFacts.
Import hex console.

Lemma isDigit_digit_high (b : ascii) :
  isDigit (digit (N.shiftr (N_of_ascii b) 4)) = true.
Proof. destruct b as [[] [] [] [] [] [] [] []]; reflexivity. Qed.

Lemma isDigit_digit_low (b : ascii) :
  isDigit (digit (N.land (N_of_ascii b) 15)) = true.
Proof. destruct b as [[] [] [] [] [] [] [] []]; reflexivity. Qed.

Lemma allDigits_EncodeToString (b : list ascii) :
  allDigits (EncodeToString b) = true.
Proof.
  induction b as [|c b IH]; simpl; [reflexivity |].
  rewrite isDigit_digit_high, isDigit_digit_low, IH. reflexivity.
Qed.

Lemma length_EncodeToString (b : list ascii) :
  String.length (EncodeToString b) = 2 * length b.
Proof. induction b as [|c b IH]; simpl; [reflexivity |]. rewrite IH. lia. Qed.

Lemma allDigits_prefix (s : string) (n : nat) :
  allDigits s = true -> allDigits (substring 0 n s) = true.
Proof.
  revert n. induction s as [|c s IH]; intros n; simpl.
  - destruct n; reflexivity.
  - destruct n; [reflexivity |]. simpl. intros Hs.
    apply andb_true_iff in Hs as [Hc Hs]. rewrite Hc, (IH n Hs). reflexivity.
Qed.

Lemma length_prefix (s : string) (n : nat) :
  n <= String.length s -> String.length (substring 0 n s) = n.
Proof.
  revert n. induction s as [|c s IH]; intros n; simpl.
  - destruct n; [reflexivity | lia].
  - destruct n; [reflexivity |]. simpl. intros Hn. rewrite IH; [reflexivity | lia].
Qed.

Lemma allDigits_no_colon (s : string) :
  allDigits s = true -> strings.contains ":"%char s = false.
Proof.
  induction s as [|c s IH]; simpl; [reflexivity |].
  intros Hs. apply andb_true_iff in Hs as [Hc Hs]. rewrite (IH Hs).
  destruct (Ascii.eqb_spec c ":"%char) as [->|]; [discriminate Hc | reflexivity].
Qed.

(** Only as many bytes as give [n] digits count. *)
Lemma prefix_EncodeToString (b : list ascii) (n : nat) :
  substring 0 n (EncodeToString b)
  = substring 0 n (EncodeToString (firstn (Nat.div2 (S n)) b)).
Proof.
  revert n. induction b as [|c b IH]; intros n.
  - rewrite firstn_nil. reflexivity.
  - destruct n as [|[|n]]; [reflexivity | reflexivity |].
    change (Nat.div2 (S (S (S n)))) with (S (Nat.div2 (S n))).
    simpl. rewrite (IH n). reflexivity.
Qed.

End RandomStringFacts.

(** X23: [randomString(n)] is made of exactly [n] characters, all of them
    lowercase hexadecimal digits, so it holds no colon and a generated
    user name followed by a colon and any password is split back into
    the two by the server; the string is decided by the first half
    (rounded up) of the random bytes alone. *)
Theorem randomString_hex_digits (n : nat) (b : list ascii) :
  length b = n ->
  String.length (console.randomString n b) = n
  /\ hex.allDigits (console.randomString n b) = true
  /\ (forall password,
        strings.SplitN2 (console.randomString n b ++ String ":"%char password)
          ":"%char
        = [console.randomString n b; password])
  /\ (forall b', firstn (Nat.div2 (S n)) b' = firstn (Nat.div2 (S n)) b ->
        console.randomString n b' = console.randomString n b).
Proof.
  intros Hn. unfold console.randomString.
  pose proof (allDigits_prefix _ n (allDigits_EncodeToString b)) as Hd.
  split; [| split; [exact Hd | split]].
  - apply length_prefix. rewrite length_EncodeToString. lia.
  - intros password. unfold strings.SplitN2.
    rewrite (proj2 (cut_Some ":"%char
                      (substring 0 n (hex.EncodeToString b) ++ String ":"%char password)
                      (substring 0 n (hex.EncodeToString b)) password));
      [reflexivity |].
    split; [reflexivity | apply allDigits_no_colon; exact Hd].
  - intros b' Hb. rewrite (prefix_EncodeToString b' n), Hb.
    symmetry. apply prefix_EncodeToString.
Qed.

(** The theorem at work on eight bytes: the last four do not count. *)
Lemma randomString_hex_digits_witness :
  console.randomString 8
    ["222"; "173"; "190"; "239"; "000"; "001"; "002"; "003"]%char
  = "deadbeef"
  /\ console.randomString 8
       ["222"; "173"; "190"; "239"; "255"; "255"; "255"; "255"]%char
     = console.randomString 8
         ["222"; "173"; "190"; "239"; "000"; "001"; "002"; "003"]%char.
Proof.
  split; [reflexivity |].
  destruct (randomString_hex_digits 8
              ["222"; "173"; "190"; "239"; "000"; "001"; "002"; "003"]%char eq_refl)
    as (_ & _ & _ & Hhalf).
  apply Hhalf. reflexivity.
Defined.

(** ** What the checker spares, whatever the store does *)

Section SpareFacts.
Import repository SQLite observe invariant.

Lemma keeps_frame (k : string) (d d' : SQLiteRepository) :
  rows d' = rows d -> keeps k d d'.
Proof.
  intros Hr m Hm. exists m. unfold row in *. rewrite Hr.
  split; [exact Hm | apply sameRecord_refl].
Qed.

Lemma keeps_trans (k : string) (a b c : SQLiteRepository) :
  keeps k a b -> keeps k b c -> keeps k a c.
Proof.
  intros Hab Hbc m Hm. destruct (Hab m Hm) as (m1 & Hm1 & H1).
  destruct (Hbc m1 Hm1) as (m2 & Hm2 & H2).
  exists m2. split; [exact Hm2 | exact (sameRecord_trans _ _ _ H1 H2)].
Qed.

Lemma keeps_update (k u : string) (n : ProxyModel -> Z) (now : string)
  (d : SQLiteRepository) (l : list ProxyModel) (s : Z) :
  l = update_where u (fun m => set_failed (n m) now m) (rows d) ->
  keeps k d (with_rows l s d).
Proof.
  intros -> m Hm. unfold row in *. simpl.
  rewrite find_update_where by reflexivity. rewrite Hm.
  destruct (String.eqb k u); simpl; eexists; (split; [reflexivity |]).
  - unfold sameRecord. auto.
  - apply sameRecord_refl.
Qed.

Lemma Reset_keeps (k u : string) (d : SQLiteRepository) :
  keeps k d (snd (SQLite.ResetFailedChecks u d)).
Proof.
  unfold SQLite.ResetFailedChecks.
  destruct (driver_frame d) as (Hr & _).
  destruct (driver d) as [[e|] d0]; simpl in Hr; simpl; [apply keeps_frame; exact Hr |].
  destruct (Nat.eqb _ 0); simpl; [apply keeps_frame; exact Hr |].
  apply (keeps_trans k d d0); [apply keeps_frame; exact Hr |].
  apply (keeps_update k u (fun _ => 0%Z) (clock d0)). reflexivity.
Qed.

Lemma Increment_keeps (k u : string) (d : SQLiteRepository) :
  keeps k d (snd (SQLite.IncrementFailedChecks u d)).
Proof.
  unfold SQLite.IncrementFailedChecks.
  destruct (driver_frame d) as (Hr & _).
  destruct (driver d) as [[e|] d0]; simpl in Hr; simpl; [apply keeps_frame; exact Hr |].
  destruct (Nat.eqb _ 0); simpl; [apply keeps_frame; exact Hr |].
  apply (keeps_trans k d d0); [apply keeps_frame; exact Hr |].
  apply (keeps_update k u (fun m => (FailedChecks m + 1)%Z) (clock d0)). reflexivity.
Qed.

Lemma Find_keeps (k u : string) (d : SQLiteRepository) :
  keeps k d (snd (SQLite.FindByUsername u d)).
Proof.
  unfold SQLite.FindByUsername.
  destruct (driver_frame d) as (Hr & _).
  destruct (driver d) as [[e|] d0]; simpl in Hr; simpl; apply keeps_frame; exact Hr.
Qed.

Lemma Delete_keeps (k u : string) (d : SQLiteRepository) :
  k <> u -> keeps k d (snd (SQLite.Delete u d)).
Proof.
  intros Hk. unfold SQLite.Delete.
  destruct (driver_frame d) as (Hr & _).
  destruct (driver d) as [[e|] d0]; simpl in Hr; simpl; [apply keeps_frame; exact Hr |].
  destruct (Nat.eqb _ 0); simpl; [apply keeps_frame; exact Hr |].
  intros m Hm. exists m. unfold row in *. simpl. rewrite find_delete, Hr.
  destruct (String.eqb_spec k u); [contradiction |].
  split; [exact Hm | apply sameRecord_refl].
Qed.

Lemma handleResult_keeps (conf : checker.CheckerConfig) (result : checker.CheckResult)
  (k : string) (d : SQLiteRepository) :
  checker.Success result = true \/ k <> checker.Username result ->
  keeps k d (checker.handleResult conf result d).
Proof.
  intros Hcase. unfold checker.handleResult.
  change (@repository.ResetFailedChecks SQLiteRepository _) with SQLite.ResetFailedChecks.
  change (@repository.IncrementFailedChecks SQLiteRepository _)
    with SQLite.IncrementFailedChecks.
  change (@repository.FindByUsername SQLiteRepository _) with SQLite.FindByUsername.
  change (@repository.Delete SQLiteRepository _) with SQLite.Delete.
  destruct (checker.Success result); [apply Reset_keeps |].
  destruct Hcase as [Hs|Hk]; [discriminate |].
  pose proof (Increment_keeps k (checker.Username result) d) as H1.
  destruct (SQLite.IncrementFailedChecks (checker.Username result) d) as [[e|] d1];
    simpl in H1; [exact H1 |].
  pose proof (Find_keeps k (checker.Username result) d1) as H2.
  destruct (SQLite.FindByUsername (checker.Username result) d1) as [[[proxy|]|e] d2];
    simpl in H2; try exact (keeps_trans _ _ _ _ H1 H2).
  destruct (FailedChecks proxy >=? checker.maxFailedChecks conf)%Z;
    [| exact (keeps_trans _ _ _ _ H1 H2)].
  apply (keeps_trans k d d2); [exact (keeps_trans _ _ _ _ H1 H2) |].
  apply Delete_keeps. exact Hk.
Qed.

Lemma fold_results_keeps (conf : checker.CheckerConfig) (k : string)
  (results : list checker.CheckResult) :
  (forall result, In result results ->
     checker.Success result = true \/ k <> checker.Username result) ->
  forall d,
    keeps k d (fold_left (fun r result => checker.handleResult conf result r) results d).
Proof.
  induction results as [|res rest IH]; intros Hall d; simpl.
  - apply keeps_frame. reflexivity.
  - apply (keeps_trans k d (checker.handleResult conf res d)).
    + apply handleResult_keeps. apply Hall. left. reflexivity.
    + apply IH. intros result Hin. apply Hall. right. exact Hin.
Qed.

End SpareFacts.

(** X16: Whatever the store does (statements failing in the driver at any
    point of the cycle included), a cycle never deletes the record of
    an upstream whose probe succeeds, and never changes its row id,
    user name, password, target or creation time. *)
Theorem reachable_upstream_survives (conf : checker.CheckerConfig)
  (net : checker.Network)
  (arrival : list checker.CheckResult -> list checker.CheckResult)
  (db : repository.SQLiteRepository) (username : string)
  (m : repository.ProxyModel) :
  observe.unique db -> observe.fair arrival ->
  observe.row username db = Some m ->
  observe.probeOK conf net (repository.Target m) = true ->
  exists m',
    observe.row username (snd (checker.Check conf net arrival db)) = Some m'
    /\ invariant.sameRecord m m'.
Proof.
  intros Hu Hfair Hm Hok.
  cut (invariant.keeps username db (snd (checker.Check conf net arrival db)));
    [intros Hkeeps; exact (Hkeeps m Hm) |].
  unfold checker.Check.
  change (@repository.FindAll repository.SQLiteRepository _)
    with repository.SQLite.FindAll.
  unfold repository.SQLite.FindAll.
  destruct (driver_frame db) as (Hr & _).
  destruct (repository.SQLite.driver db) as [[e|] d0]; simpl in Hr; simpl;
    [apply keeps_frame; exact Hr |].
  destruct (Nat.eqb _ 0); simpl; [apply keeps_frame; exact Hr |].
  apply (keeps_trans username db d0); [apply keeps_frame; exact Hr |].
  apply fold_results_keeps. intros result Hin.
  apply (Permutation_in _ (Hfair _)) in Hin.
  apply in_map_iff in Hin as (p & <- & Hin).
  apply in_map_iff in Hin as (m0 & <- & Hin). rewrite Hr in Hin.
  destruct (checkSingleProxy_result conf net (repository.SQLite.scan m0)) as [Hn Hs].
  rewrite Hn, Hs.
  destruct (String.eqb_spec username (repository.Username m0)) as [Heq|Hne].
  - left. assert (Some m0 = Some m) as [= ->].
    { rewrite <- Hm. symmetry. apply find_unique; auto. }
    exact Hok.
  - right. exact Hne.
Qed.

(** The theorem at work: bob, one failure short of a maximum of 4, is
    reachable while the database file is locked for one statement. *)
Lemma reachable_upstream_survives_witness :
  exists m',
    observe.row "bob"
      (snd (checker.Check
              {| checker.MaxFailedChecks := 4; checker.CheckURL := EmptyString |}
              observe.reachable observe.inOrder sample.locked)) = Some m'
    /\ invariant.sameRecord sample.bob m'.
Proof.
  apply (reachable_upstream_survives _ observe.reachable observe.inOrder
           sample.locked "bob" sample.bob).
  - exact unique_sample.
  - exact fair_inOrder.
  - reflexivity.
  - reflexivity.
Defined.

(** ** The counter methods of the store *)



(** ** The checker and a router built after it *)



(** X18: [Check] returns an error exactly when fetching the proxies fails,
    and then it has done nothing but that call; with no proxy stored it
    returns nil without a probe.  A store error while a result is
    recorded is never returned. *)
Theorem Check_reports_only_load_failure {R : Type} `{repository.IProxyRepository R}
  (conf : checker.CheckerConfig) (net : checker.Network)
  (arrival : list checker.CheckResult -> list checker.CheckResult) (r : R) :
  (fst (checker.Check conf net arrival r) = None
   <-> is_ok (fst (repository.FindAll r)) = true)
  /\ (forall e r', repository.FindAll r = (Err e, r') ->
        checker.Check conf net arrival r
        = (Some ("failed to fetch proxies: " ++ e), r'))
  /\ (forall r', repository.FindAll r = (Ok [], r') ->
        checker.Check conf net arrival r = (None, r')).
Proof.
  unfold checker.Check.
  destruct (repository.FindAll r) as [[proxies|e] r']; simpl.
  - split; [| split].
    + destruct (Nat.eqb (length proxies) 0); simpl; tauto.
    + intros e r'' [=].
    + intros r'' [= -> ->]. reflexivity.
  - split; [split; discriminate |]. split.
    + intros e' r'' [= -> ->]. reflexivity.
    + intros r'' [=].
Qed.

(** The theorem at work: the database file is locked during the fetch,
    and an empty table. *)
Lemma Check_reports_only_load_failure_witness :
  checker.Check sample.conf observe.unreachable observe.inOrder sample.locked
  = (Some "failed to fetch proxies: failed to query proxies: database is locked",
     sample.db)
  /\ checker.Check sample.conf observe.unreachable observe.inOrder
       (repository.open [] 0 "2025-02-01 00:00:00")
     = (None, repository.open [] 0 "2025-02-01 00:00:00").
Proof.
  destruct (Check_reports_only_load_failure sample.conf observe.unreachable
              observe.inOrder sample.locked) as (_ & Herr & _).
  destruct (Check_reports_only_load_failure sample.conf observe.unreachable
              observe.inOrder (repository.open [] 0 "2025-02-01 00:00:00"))
    as (_ & _ & Hempty).
  split; [exact (Herr _ _ eq_refl) | exact (Hempty _ eq_refl)].
Defined.

(** ** What the client is told when the upstream fails *)

(** X22: On both paths a failed dial is answered 503 with the text of the
    dial error after [Cannot connect to proxy: ]; a failed write is
    answered 500 with a fixed text and nothing recorded as sent; a
    failed read of the reply is answered 500 with a fixed text, the
    read error left out.  In the tunnel path a 200 reply is answered
    500 when the response writer is no hijacker, and 503 with the text
    of the error when the takeover fails; none of these takes over the
    client connection. *)
Theorem upstream_failures_reported (up : server.Upstream) (r : http.Request)
  (config : router.ProxyConfig) :
  let connect := server.handleConnect up http.newResponseWriter r config in
  let forward := server.handleHTTPRequest up http.newResponseWriter r config in
  let answered ex code body :=
    http.wroteHeader (server.w ex) = Some code
    /\ http.written (server.w ex) = body ++ http.LF
    /\ server.hijacked ex = false in
  (forall e, server.dial up (router.Target config) = Some e ->
     answered connect 503%Z ("Cannot connect to proxy: " ++ e)
     /\ answered forward 503%Z ("Cannot connect to proxy: " ++ e))
  /\ (forall e, server.dial up (router.Target config) = None ->
        server.write up = Some e ->
        answered connect 500%Z "Failed to send CONNECT"
        /\ answered forward 500%Z "Failed to send request to proxy"
        /\ server.sent connect = [] /\ server.sent forward = [])
  /\ (forall e, server.dial up (router.Target config) = None ->
        server.write up = None ->
        server.reply up = Err e ->
        answered connect 500%Z "Failed to read proxy response"
        /\ answered forward 500%Z "Failed to read proxy response")
  /\ (forall resp, server.dial up (router.Target config) = None ->
        server.write up = None ->
        server.reply up = Ok resp ->
        http.StatusCode resp = 200%Z ->
        (server.hijack up = server.NotHijacker ->
           answered connect 500%Z "Hijacking not supported")
        /\ (forall e, server.hijack up = server.HijackFailed e ->
              answered connect 503%Z e)).
Proof.
  intros connect forward answered. subst connect forward answered. cbv beta.
  unfold server.handleConnect, server.handleHTTPRequest.
  split; [| split; [| split]].
  - intros e ->. repeat split; reflexivity.
  - intros e -> ->. repeat split; reflexivity.
  - intros e -> -> ->. repeat split; reflexivity.
  - intros resp -> -> -> Hcode. unfold http.StatusOK. rewrite Hcode. simpl. split.
    + intros ->. repeat split; reflexivity.
    + intros e ->. repeat split; reflexivity.
Qed.

(** The theorem at work: a refused dial. *)
Lemma upstream_failures_reported_witness :
  http.written
    (server.w (server.handleConnect sample.refused http.newResponseWriter
                 (sample.request "CONNECT" sample.aliceAuth)
                 (router.configOf sample.alice)))
  = "Cannot connect to proxy: dial tcp 203.0.113.5:3128: connect: connection refused"
    ++ http.LF.
Proof.
  destruct (upstream_failures_reported sample.refused
              (sample.request "CONNECT" sample.aliceAuth)
              (router.configOf sample.alice)) as (Hdial & _).
  destruct (Hdial _ eq_refl) as ((_ & Hbody & _) & _).
  exact Hbody.
Defined.
